(** * Dashsee: the sales dashboard's table pipeline, cache and metrics

    A shallow embedding of [app.py].  The script keeps one pandas table
    [df] and derives three views and a bundle of metrics from it; every
    derivation runs inside [try ... except Exception] and degrades to an
    empty table (or a bundle of zeros) after an [st.error] message.

    What is modelled, and how:
    - a cell is a Python value: an integer, a string, the missing value
      (NaN / None), or a floating-point number that is not an integer.
      Integers are pandas's [int64]: a table holds integers of that
      range, and sums and absolute values wrap around at 64 bits;
    - of a number that is not an integer, whether a month cell holds it
      or [pd.to_numeric] reads it from a string, and of a sum it takes
      part in, the value is not kept: only its presence, and whether it
      is known to be at least 0.  In the dimension columns the model
      knows integers and strings only;
    - a column that holds a missing value is stored by pandas as 64-bit
      floats.  Floats represent integers exactly up to 2^53, and below
      that bound they add as the integers do; the statements about tables
      with missing or unreadable cells carry that bound;
    - a table is its list of column labels and its rows, cell by position;
    - the pandas operations the script calls ([df[col]], boolean indexing,
      [melt], [groupby(..)[..].sum().reset_index()], [to_numeric], [abs],
      [DataFrame.sum]) are functions into an error monad whose failures
      are the Python exceptions they raise;
    - Streamlit output ([st.error], [st.warning], [st.plotly_chart]) is a
      list of events returned next to the value; an exception raised
      outside every [try] ends the run and is the last event of it;
    - [st.cache_data(ttl=300)] is a finite map from argument tuples to
      stored results with the time they were stored. *)

From Stdlib Require Import ZArith QArith String Ascii List Sorted Lia.
From stdpp Require Import base option list gmap strings.
Import ListNotations.

Local Open Scope string_scope.
Local Open Scope list_scope.
Local Open Scope Z_scope.

(** ** Python values and exceptions *)

(** [VFloat] is a floating-point number whose value is not kept: one
    that is not an integer, or the result of a computation with one.
    [nonneg] says that it is known to be at least 0. *)
Inductive pyval : Type :=
  | VInt (z : Z)
  | VStr (s : string)
  | VNaN
  | VFloat (nonneg : bool).

Inductive exn : Type :=
  | KeyError (labels : list string)
  | TypeError
  | ValueError.

Inductive res (A : Type) : Type :=
  | Ok (a : A)
  | Raise (e : exn).
Arguments Ok {A} a.
Arguments Raise {A} e.

#[export] Instance res_ret : MRet res := fun A a => Ok a.
#[export] Instance res_bind : MBind res := fun A B f m =>
  match m with
  | Ok a => f a
  | Raise e => Raise e
  end.

#[export] Instance pyval_eq_dec : EqDecision pyval.
Proof. solve_decision. Defined.

Definition is_null (v : pyval) : bool :=
  match v with VNaN => true | _ => false end.

(** [a == b] on two cells.  NaN is equal to nothing, itself included. *)
Definition py_eq (a b : pyval) : bool :=
  match a, b with
  | VInt x, VInt y => Z.eqb x y
  | VStr x, VStr y => String.eqb x y
  | _, _ => false
  end.

Definition py_ne (a b : pyval) : bool := negb (py_eq a b).

(** The range of [int64], and the value a 64-bit register keeps of an
    integer: the one congruent to it modulo 2^64 in that range. *)
Definition min64 : Z := Eval cbv in - 2 ^ 63.

Definition max64 : Z := Eval cbv in 2 ^ 63 - 1.

Definition wrap64 (z : Z) : Z := (z - min64) mod (max64 - min64 + 1) + min64.

(** [a + b].  Integers add in 64 bits, strings concatenate, a number and
    a string raise [TypeError]; NaN absorbs numbers, and a sum with a
    number that is not an integer is a float whose value is not kept. *)
Definition py_add (a b : pyval) : res pyval :=
  match a, b with
  | VInt x, VInt y => Ok (VInt (wrap64 (x + y)))
  | VStr x, VStr y => Ok (VStr (String.append x y))
  | VStr _, _ | _, VStr _ => Raise TypeError
  | VNaN, _ | _, VNaN => Ok VNaN
  | VFloat p, VFloat q => Ok (VFloat (p && q))
  | VFloat p, VInt z | VInt z, VFloat p => Ok (VFloat (p && (0 <=? z)))
  end.

(** [abs(a)]: defined on numbers only.  In 64 bits the absolute value of
    -2^63 is -2^63. *)
Definition py_abs (a : pyval) : res pyval :=
  match a with
  | VInt x => Ok (VInt (wrap64 (Z.abs x)))
  | VNaN => Ok VNaN
  | VFloat _ => Ok (VFloat true)
  | VStr _ => Raise TypeError
  end.

(** ** Tables *)

Record DataFrame : Type := mkDataFrame {
  columns : list string;
  rows : list (list pyval)
}.

(** [pd.DataFrame()] *)
Definition empty_frame : DataFrame := mkDataFrame [] [].

(** [df.empty]: some axis has length 0. *)
Definition is_empty (df : DataFrame) : bool :=
  match columns df, rows df with
  | [], _ | _, [] => true
  | _, _ => false
  end.

Fixpoint index_of (c : string) (cols : list string) : option nat :=
  match cols with
  | [] => None
  | c' :: cols' =>
      if String.eqb c c' then Some O else S <$> index_of c cols'
  end.

Definition has_col (cols : list string) (c : string) : bool :=
  match index_of c cols with Some _ => true | None => false end.

(** The cell of row [r] under label [c]; a label the table does not have
    reads as missing. *)
Definition cell (cols : list string) (r : list pyval) (c : string) : pyval :=
  match index_of c cols with
  | Some i => default VNaN (r !! i)
  | None => VNaN
  end.

(** [df[c]]: one column, or [KeyError]. *)
Definition getitem (df : DataFrame) (c : string) : res (list pyval) :=
  if has_col (columns df) c
  then Ok (map (fun r => cell (columns df) r c) (rows df))
  else Raise (KeyError [c]).

(** [df[[c1, ..., cn]]]: the sub-table of these columns; [KeyError] lists
    the labels that are not there. *)
Definition getitems (df : DataFrame) (cs : list string) : res DataFrame :=
  match List.filter (fun c => negb (has_col (columns df) c)) cs with
  | [] => Ok (mkDataFrame cs
                (map (fun r => map (cell (columns df) r) cs) (rows df)))
  | missing => Raise (KeyError missing)
  end.

(** [df[mask]] for a boolean series [mask] aligned with the rows. *)
Definition boolean_index (df : DataFrame) (mask : list bool) : DataFrame :=
  mkDataFrame (columns df)
    (map fst (List.filter snd (zip (rows df) mask))).

(** [df[c] = values]: replace the cells of an existing column. *)
Definition setitem (df : DataFrame) (c : string) (values : list pyval)
  : DataFrame :=
  match index_of c (columns df) with
  | Some i =>
      mkDataFrame (columns df)
        (zip_with (fun r v => <[i := v]> r) (rows df) values)
  | None =>
      mkDataFrame (columns df ++ [c])
        (zip_with (fun r v => r ++ [v]) (rows df) values)
  end.

(** [df.melt(id_vars, value_vars, var_name, value_name)]: one row per
    value column and source row, value columns outermost.  Labels missing
    from the table raise [KeyError]. *)
Definition melt (df : DataFrame) (id_vars value_vars : list string)
    (var_name value_name : string) : res DataFrame :=
  match List.filter (fun c => negb (has_col (columns df) c))
          (id_vars ++ value_vars) with
  | [] =>
      Ok (mkDataFrame (id_vars ++ [var_name; value_name])
            (flat_map
               (fun v =>
                  map (fun r =>
                         map (cell (columns df) r) id_vars
                           ++ [VStr v; cell (columns df) r v])
                      (rows df))
               value_vars))
  | missing => Raise (KeyError missing)
  end.

(** *** Grouped sums

    [groupby(keys)[col].sum().reset_index()].  Groups come out sorted by
    key (numbers before strings), a row with a missing key belongs to no
    group, and inside a group the non-missing values are added in row
    order with Python's [+], the first one taken as it is; a group with
    no value at all sums to 0.  Keys are integers and strings: for
    numbers that are not integers the model does not have the order of
    their values. *)

Definition pyval_compare (a b : pyval) : comparison :=
  match a, b with
  | VInt x, VInt y => Z.compare x y
  | VInt _, _ => Lt
  | VFloat _, VInt _ => Gt
  | VFloat p, VFloat q => Bool.compare p q
  | VFloat _, _ => Lt
  | VStr _, (VInt _ | VFloat _) => Gt
  | VStr x, VStr y => String.compare x y
  | VStr _, VNaN => Lt
  | VNaN, VNaN => Eq
  | VNaN, _ => Gt
  end.

Fixpoint key_compare (k1 k2 : list pyval) : comparison :=
  match k1, k2 with
  | [], [] => Eq
  | [], _ :: _ => Lt
  | _ :: _, [] => Gt
  | a :: k1', b :: k2' =>
      match pyval_compare a b with
      | Eq => key_compare k1' k2'
      | c => c
      end
  end.

Definition observe (acc : option pyval) (v : pyval) : res (option pyval) :=
  if is_null v then Ok acc
  else match acc with
       | None => Ok (Some v)
       | Some a => s ← py_add a v; Ok (Some s)
       end.

Definition groups : Type := list (list pyval * option pyval).

Fixpoint upsert (k : list pyval) (v : pyval) (gs : groups) : res groups :=
  match gs with
  | [] => a ← observe None v; Ok [(k, a)]
  | (k', a) :: gs' =>
      match key_compare k k' with
      | Eq => a' ← observe a v; Ok ((k', a') :: gs')
      | Lt => a' ← observe None v; Ok ((k, a') :: gs)
      | Gt => gs'' ← upsert k v gs'; Ok ((k', a) :: gs'')
      end
  end.

Fixpoint group_rows (kvs : list (list pyval * pyval)) (gs : groups)
  : res groups :=
  match kvs with
  | [] => Ok gs
  | (k, v) :: kvs' =>
      if existsb is_null k then group_rows kvs' gs
      else gs' ← upsert k v gs; group_rows kvs' gs'
  end.

Definition groupby_sum (df : DataFrame) (keys : list string) (col : string)
  : res DataFrame :=
  match List.filter (fun c => negb (has_col (columns df) c)) keys with
  | [] =>
      if has_col (columns df) col then
        gs ← group_rows
               (map (fun r => (map (cell (columns df) r) keys,
                               cell (columns df) r col))
                    (rows df))
               [];
        Ok (mkDataFrame (keys ++ [col])
              (map (fun g => fst g ++ [default (VInt 0) (snd g)]) gs))
      else Raise (KeyError [col])
  | k :: _ => Raise (KeyError [k])
  end.

(** ** Streamlit output *)

(** A displayed quantity: a cell value, or a decimal literal of the
    script. *)
Inductive number : Type :=
  | Whole (v : pyval)
  | Ratio (q : Q).

Inductive figure : Type :=
  | Indicator (label : string) (value : number)
  | Gauge (title : string) (value : number) (max_bound : Z)
  | Bar (title : string) (data : DataFrame)
  | Line (title : string) (data : DataFrame).

Inductive event : Type :=
  | StSuccess (loaded_rows : nat)
  | StInfo (msg : string)
  | StError (what : string) (e : exn)
  | StFailure (what : string) (msg : string)
  | StWarning (msg : string)
  | StDataframe (data : DataFrame)
  | StPlotlyChart (fig : figure)
  | StException (e : exn).

(** ** The views *)

Definition all_months : list string :=
  ["Jan"; "Feb"; "Mar"; "Apr"; "May"; "Jun";
   "Jul"; "Aug"; "Sep"; "Oct"; "Nov"; "Dec"].

(** The [try] block of [process_sales_data_by_unit]. *)
Definition sales_by_unit_try (df : DataFrame) : res DataFrame :=
  year ← getitem df "Year";
  account ← getitem df "Account";
  let mask := zip_with andb (map (fun v => py_eq v (VInt 2023)) year)
                            (map (fun v => py_eq v (VStr "Sales")) account) in
  let sales_df := boolean_index df mask in
  melted_df ← melt sales_df ["Scenario"; "business_unit"] all_months
                   "month" "sales";
  groupby_sum melted_df ["Scenario"; "business_unit"] "sales".

Definition process_sales_data_by_unit (df : DataFrame)
  : DataFrame * list event :=
  match sales_by_unit_try df with
  | Ok agg_df => (agg_df, [])
  | Raise e =>
      (empty_frame, [StError "Error processing sales data by unit" e])
  end.

Definition scenario_table : DataFrame :=
  mkDataFrame
    (["Scenario"; "Year"; "Account"; "business_unit"] ++ all_months)
    [[VStr "Budget"; VInt 2023; VStr "Sales"; VStr "Software";
      VInt 150000; VInt 155000; VInt 0; VInt 0; VInt 0; VInt 0;
      VInt 0; VInt 0; VInt 0; VInt 0; VInt 0; VInt 0]].

(** The [try] block of [process_monthly_sales_data]: the same filter
    narrowed to the Software unit, melted and not summed. *)
Definition monthly_sales_try (df : DataFrame) : res DataFrame :=
  year ← getitem df "Year";
  account ← getitem df "Account";
  unit ← getitem df "business_unit";
  let mask :=
    zip_with andb
      (zip_with andb (map (fun v => py_eq v (VInt 2023)) year)
                     (map (fun v => py_eq v (VStr "Sales")) account))
      (map (fun v => py_eq v (VStr "Software")) unit) in
  let sales_df := boolean_index df mask in
  melt sales_df ["Scenario"] all_months "month" "sales".

Definition process_monthly_sales_data (df : DataFrame)
  : DataFrame * list event :=
  match monthly_sales_try df with
  | Ok melted_df => (melted_df, [])
  | Raise e =>
      (empty_frame, [StError "Error processing monthly sales data" e])
  end.

(** What [pd.to_numeric] makes of a string it can read: an integer, or
    a number that is not one (["1.5"]), of which it is kept whether it is
    at least 0. *)
Inductive reading : Type :=
  | Integer (z : Z)
  | NonInteger (nonneg : bool).

(** A reader of signed decimal integers, used where a concrete reader of
    numbers is needed. *)
Definition digit_of (c : ascii) : option Z :=
  let n := Z.of_N (N_of_ascii c) in
  if (48 <=? n) && (n <=? 57) then Some (n - 48) else None.

Fixpoint parse_digits (acc : Z) (s : string) : option Z :=
  match s with
  | EmptyString => Some acc
  | String c s' =>
      match digit_of c with
      | Some d => parse_digits (10 * acc + d) s'
      | None => None
      end
  end.

Definition parse_int (s : string) : option reading :=
  match s with
  | EmptyString => None
  | String "-" EmptyString => None
  | String "-" s' => (fun z => Integer (- z)) <$> parse_digits 0 s'
  | _ => Integer <$> parse_digits 0 s
  end.

Section Dashboard.

(** How [pd.to_numeric] reads a string: the number it denotes, or
    nothing when it cannot be parsed.  The grammar is pandas's and is
    left open. *)
Variable parse_number : string -> option reading.

(** [pd.to_numeric(_, errors='coerce')] on one cell. *)
Definition to_numeric_coerce (v : pyval) : pyval :=
  match v with
  | VInt z => VInt z
  | VStr s =>
      match parse_number s with
      | Some (Integer z) => VInt z
      | Some (NonInteger p) => VFloat p
      | None => VNaN
      end
  | VNaN => VNaN
  | VFloat p => VFloat p
  end.

(** One pass of the loop
    [actuals_df[col] =
       pd.to_numeric(actuals_df[col], errors='coerce').abs()]. *)
Definition abs_column (d : DataFrame) (col : string) : res DataFrame :=
  series ← getitem d col;
  magnitudes ← mapM py_abs (map to_numeric_coerce series);
  Ok (setitem d col magnitudes).

Fixpoint abs_columns (d : DataFrame) (cols : list string) : res DataFrame :=
  match cols with
  | [] => Ok d
  | col :: cols' => d' ← abs_column d col; abs_columns d' cols'
  end.

(** The [try] block of [process_yearly_account_data]. *)
Definition yearly_account_try (df : DataFrame) : res DataFrame :=
  scenario ← getitem df "Scenario";
  account ← getitem df "Account";
  let mask :=
    zip_with andb (map (fun v => py_eq v (VStr "Actuals")) scenario)
                  (map (fun v => py_ne v (VStr "Sales")) account) in
  let actuals_df := boolean_index df mask in
  let month_cols := List.filter (has_col (columns actuals_df)) all_months in
  actuals_abs ← abs_columns actuals_df month_cols;
  melted_df ← melt actuals_abs ["Account"; "Year"] month_cols
                   "month" "sales";
  groupby_sum melted_df ["Account"; "Year"] "sales".

Definition process_yearly_account_data (df : DataFrame)
  : DataFrame * list event :=
  match yearly_account_try df with
  | Ok agg_df => (agg_df, [])
  | Raise e =>
      (empty_frame, [StError "Error processing yearly account data" e])
  end.

End Dashboard.

(** ** Metrics *)

(** [Series.sum()]: missing values count as 0, the rest is added left
    to right, in 64 bits, starting from the first value; an empty series
    sums to 0. *)
Definition fill0 (v : pyval) : pyval := if is_null v then VInt 0 else v.

Fixpoint add_all (a : pyval) (l : list pyval) : res pyval :=
  match l with
  | [] => Ok a
  | v :: l' => s ← py_add a (fill0 v); add_all s l'
  end.

Definition series_sum (l : list pyval) : res pyval :=
  match l with
  | [] => Ok (VInt 0)
  | v :: l' => add_all (fill0 v) l'
  end.

(** [DataFrame.sum()]: the sum of every column (with pandas 2, where a
    column that cannot be summed raises instead of being left out). *)
Definition frame_sum (df : DataFrame) : res (list pyval) :=
  mapM (fun c => series_sum (map (fun r => cell (columns df) r c) (rows df)))
       (columns df).

Record MetricsBundle : Type := mkMetrics {
  accounts_receivable : pyval;
  accounts_payable : pyval;
  equity_ratio : Q;
  debt_equity : Q;
  current_ratio : Q
}.

(** [series.isin(values)] on one cell. *)
Definition isin (values : list pyval) (v : pyval) : bool :=
  existsb (py_eq v) values.

(** The [try] block of [calculate_metrics]. *)
Definition calculate_metrics_try (df : DataFrame) : res MetricsBundle :=
  account ← getitem df "Account";
  sales ← getitems
            (boolean_index df (map (fun v => py_eq v (VStr "Sales")) account))
            all_months;
  sales_by_month ← frame_sum sales;
  receivable ← series_sum sales_by_month;
  account' ← getitem df "Account";
  costs ← getitems
            (boolean_index df
               (map (isin [VStr "Marketing"; VStr "Operations"]) account'))
            all_months;
  costs_by_month ← frame_sum costs;
  payable ← series_sum costs_by_month;
  receivable_abs ← py_abs receivable;
  payable_abs ← py_abs payable;
  Ok (mkMetrics receivable_abs payable_abs
        (7538 # 100) (110 # 100) (186 # 100)).

Definition zero_metrics : MetricsBundle :=
  mkMetrics (VInt 0) (VInt 0) 0%Q 0%Q 0%Q.

Definition calculate_metrics (df : DataFrame)
  : MetricsBundle * list event :=
  match calculate_metrics_try df with
  | Ok metrics => (metrics, [])
  | Raise e => (zero_metrics, [StError "Error calculating metrics" e])
  end.


(** ** Charts

    Each plot function computes its view and draws it, or warns that there
    is nothing to draw.  The plot functions are called outside every
    [try]: an exception one of them raises ends the run, and Streamlit
    shows it ([StException]). *)

(** Whether a displayed quantity is a number below 0. *)
Definition negative (value : number) : bool :=
  match value with
  | Whole (VInt z) => z <? 0
  | Whole _ => false
  | Ratio q => Qnum q <? 0
  end.

(** An indicator is modelled by its label and value.  With [show_graph]
    the function first draws a random trend with
    [np.random.normal(value, value * 0.1, 30)], which raises [ValueError]
    when the scale [value * 0.1] is negative; the trend itself is not
    part of the model. *)
Definition plot_metric (label : string) (value : number) (show_graph : bool)
  : res (list event) :=
  if show_graph && negative value then Raise ValueError
  else Ok [StPlotlyChart (Indicator label value)].

Definition plot_gauge (value : number) (title : string) (max_bound : Z)
  : list event :=
  [StPlotlyChart (Gauge title value max_bound)].

Definition plot_top_right (df : DataFrame) : list event :=
  let '(sales_data, shown) := process_sales_data_by_unit df in
  shown ++
  if is_empty sales_data
  then [StWarning "No data available for sales by business unit"]
  else [StPlotlyChart (Bar "Sales by Business Unit (2023)" sales_data)].

Definition plot_bottom_left (df : DataFrame) : list event :=
  let '(sales_data, shown) := process_monthly_sales_data df in
  shown ++
  if is_empty sales_data
  then [StWarning "No data available for monthly sales trend"]
  else [StPlotlyChart
          (Line "Monthly Sales Trend - Software (2023)" sales_data)].

Definition plot_bottom_right (parse_number : string -> option reading)
    (df : DataFrame) : list event :=
  let '(sales_data, shown) := process_yearly_account_data parse_number df in
  shown ++
  if is_empty sales_data
  then [StWarning "No data available for yearly account sales"]
  else [StPlotlyChart
          (Bar "Yearly Performance by Account (Actuals)" sales_data)].

(** The four metric columns: an indicator above a gauge in each.  The
    calls, in the order of the script. *)
Definition top_left_column (metrics : MetricsBundle)
  : list (res (list event)) :=
  [plot_metric "Total Accounts Receivable"
     (Whole (accounts_receivable metrics)) true;
   Ok (plot_gauge (Ratio (current_ratio metrics)) "Current Ratio" 3);
   plot_metric "Total Accounts Payable"
     (Whole (accounts_payable metrics)) true;
   Ok (plot_gauge (Whole (VInt 10)) "In Stock" 31);
   plot_metric "Equity Ratio" (Ratio (equity_ratio metrics)) false;
   Ok (plot_gauge (Whole (VInt 7)) "Out Stock" 31);
   plot_metric "Debt Equity" (Ratio (debt_equity metrics)) false;
   Ok (plot_gauge (Whole (VInt 28)) "Delay" 31)].

(** Calls made one after the other: what they show, up to the first one
    that raises, and the exception it raises. *)
Fixpoint run_steps (steps : list (res (list event)))
  : list event * option exn :=
  match steps with
  | [] => ([], None)
  | Ok shown :: steps' =>
      let '(more, e) := run_steps steps' in (shown ++ more, e)
  | Raise e :: _ => ([], Some e)
  end.

(** The script from the data preview to the last chart, for a loaded
    table [df]. *)
Definition dashboard (parse_number : string -> option reading)
    (df : DataFrame) : list event * option exn :=
  let '(metrics, shown) := calculate_metrics df in
  run_steps
    ([Ok [StDataframe df]; Ok shown]
     ++ top_left_column metrics
     ++ [Ok (plot_top_right df); Ok (plot_bottom_left df);
         Ok (plot_bottom_right parse_number df)]).

(** ** Loading and the cache *)

Fixpoint contains (p s : string) : bool :=
  String.prefix p s
  || match s with
     | EmptyString => false
     | String _ s' => contains p s'
     end.

(** [s.split(sep)] for a non-empty separator; [skip] counts the characters
    of a matched separator still to pass over. *)
Fixpoint split_from (sep : string) (skip : nat) (cur s : string)
  : list string :=
  match s with
  | EmptyString => [cur]
  | String c s' =>
      match skip with
      | S n => split_from sep n cur s'
      | O =>
          if String.prefix sep s
          then cur :: split_from sep (String.length sep - 1) EmptyString s'
          else split_from sep O (String.append cur (String c EmptyString)) s'
      end
  end.

Definition split (sep s : string) : list string :=
  split_from sep O EmptyString s.

(** What lies outside the script: whether the uploaded text is accepted as
    service-account credentials (the message of the exception otherwise),
    and what opening a sheet by its key and reading its first worksheet
    gives (the table, or the message of the exception). *)
Record World : Type := mkWorld {
  authorize : string -> option string;
  open_by_key : string -> string -> string + DataFrame
}.

(** The pair the loader returns: [(df, None)] or [(None, str(e))]. *)
Definition loaded : Type := option DataFrame * option string.

(** The body of [load_google_sheets_data], without its decorator. *)
Definition load_google_sheets_data_uncached (w : World)
    (json_credentials sheets_url : string) : loaded :=
  match authorize w json_credentials with
  | Some msg => (None, Some msg)
  | None =>
      if contains "/d/" sheets_url then
        let sheet_id :=
          nth 0 (split "/" (nth 1 (split "/d/" sheets_url) EmptyString))
              EmptyString in
        match open_by_key w json_credentials sheet_id with
        | inr df => (Some df, None)
        | inl msg => (None, Some msg)
        end
      else (None, Some "Invalid Google Sheets URL format")
  end.

(** [st.cache_data(ttl=300)]: results are stored under the arguments of
    the call together with the time of storing, and a stored result is
    served while it is younger than the TTL. *)
Record CacheEntry : Type := mkEntry {
  stored : loaded;
  stored_at : Z
}.

Definition ttl : Z := 300.

Record Call : Type := mkCall {
  returned : loaded;
  cache_after : gmap (string * string) CacheEntry;
  fetched : bool
}.

Definition load_google_sheets_data (w : World) (now : Z)
    (json_credentials sheets_url : string)
    (cache : gmap (string * string) CacheEntry) : Call :=
  let miss :=
    let r := load_google_sheets_data_uncached w json_credentials sheets_url in
    mkCall r (<[(json_credentials, sheets_url) := mkEntry r now]> cache) true in
  match cache !! (json_credentials, sheets_url) with
  | Some entry =>
      if now - stored_at entry <? ttl
      then mkCall (stored entry) cache false
      else miss
  | None => miss
  end.

(** [st.cache_data.clear()] *)
Definition cache_clear (cache : gmap (string * string) CacheEntry)
  : gmap (string * string) CacheEntry := ∅.

(** One run of the script.  [uploaded_csv] is what [pd.read_csv] makes of
    the fallback file, when one was uploaded.  The refresh button comes
    after the charts: a run that an exception ended does not reach it. *)
Definition script (parse_number : string -> option reading) (w : World)
    (now : Z) (uploaded_json : option string) (sheets_url : string)
    (uploaded_csv : option (string + DataFrame)) (refresh : bool)
    (cache : gmap (string * string) CacheEntry)
  : list event * gmap (string * string) CacheEntry :=
  let '(df, shown, cache') :=
    match uploaded_json, sheets_url, uploaded_csv with
    | Some json, String _ _, _ =>
        let call := load_google_sheets_data w now json sheets_url cache in
        match returned call with
        | (Some df, _) =>
            (Some df, [StSuccess (length (rows df))], cache_after call)
        | (None, error) =>
            (None,
             [StFailure "Google Sheets Error" (default EmptyString error)],
             cache_after call)
        end
    | _, _, Some (inr df) =>
        (Some df, [StWarning "Using CSV fallback data."], cache)
    | _, _, Some (inl error) =>
        (None, [StFailure "CSV Error" error], cache)
    | _, _, None => (None, [], cache)
    end in
  match df with
  | None => (shown ++ [StInfo "Please configure"], cache')
  | Some df =>
      match dashboard parse_number df with
      | (drawn, None) =>
          (shown ++ [StInfo "Data Source"] ++ drawn,
           if refresh then cache_clear cache' else cache')
      | (drawn, Some e) =>
          (shown ++ [StInfo "Data Source"] ++ drawn ++ [StException e],
           cache')
      end
  end.

Definition sample_world : World :=
  mkWorld (fun _ => None)
    (fun _ sheet_id =>
       if String.eqb sheet_id "abc123" then inr scenario_table
       else inl "SpreadsheetNotFound").

(** ** Quantities the properties speak about *)

(** The number a cell stands for in a sum: missing values count 0. *)
Definition as_int (v : pyval) : Z :=
  match v with VInt z => z | _ => 0 end.

Definition sumZ {A : Type} (f : A -> Z) (l : list A) : Z :=
  fold_right (fun x t => f x + t) 0 l.

(** The sum of column [col] over the rows of [out] whose cells under
    [keys] satisfy [sel]. *)
Definition sel_total (sel : list pyval -> bool) (keys : list string)
    (col : string) (out : DataFrame) : Z :=
  sumZ (fun row =>
          if sel (map (cell (columns out) row) keys)
          then as_int (cell (columns out) row col) else 0)
       (rows out).

Definition column_total (col : string) (out : DataFrame) : Z :=
  sumZ (fun row => as_int (cell (columns out) row col)) (rows out).

(** The filters of the two aggregating views, on one record. *)
Definition sales_2023 (cols : list string) (r : list pyval) : bool :=
  py_eq (cell cols r "Year") (VInt 2023)
  && py_eq (cell cols r "Account") (VStr "Sales").

Definition actuals_not_sales (cols : list string) (r : list pyval) : bool :=
  py_eq (cell cols r "Scenario") (VStr "Actuals")
  && py_ne (cell cols r "Account") (VStr "Sales").

(** What a month cell adds to a sum of the yearly view: the magnitude of
    the integer it holds or spells, 0 when it holds none. *)
Definition magnitude (parse_number : string -> option reading) (v : pyval)
  : Z :=
  match to_numeric_coerce parse_number v with
  | VInt z => Z.abs z
  | _ => 0
  end.

(** The cell holds or spells no number that is not an integer. *)
Definition integer_reading (parse_number : string -> option reading)
    (v : pyval) : bool :=
  match to_numeric_coerce parse_number v with
  | VFloat _ => false
  | _ => true
  end.

(** Up to this bound 64-bit floats represent every integer. *)
Definition float_exact : Z := Eval cbv in 2 ^ 53.

(** The record has a value under each of [keys]. *)
Definition keyed (cols : list string) (keys : list string) (r : list pyval)
  : bool :=
  forallb (fun c => negb (is_null (cell cols r c))) keys.

(** The table of the data model: the four dimension columns and the
    twelve month columns are there. *)
Definition dimension_columns : list string :=
  ["Scenario"; "Year"; "Account"; "business_unit"].

Definition raw_table (df : DataFrame) : bool :=
  forallb (has_col (columns df)) (dimension_columns ++ all_months).

Definition months_numeric (df : DataFrame) : bool :=
  forallb (fun r =>
             forallb (fun m => match cell (columns df) r m with
                               | VInt _ => true
                               | _ => false
                               end) all_months)
          (rows df).

(** Every month cell is an integer of the [int64] range. *)
Definition months_int64 (df : DataFrame) : bool :=
  forallb (fun r =>
             forallb (fun m => match cell (columns df) r m with
                               | VInt z => (min64 <=? z) && (z <=? max64)
                               | _ => false
                               end) all_months)
          (rows df).

(** The absolute values of the month cells of the records [rs], added
    up; the magnitudes the yearly view reads in them; and whether none of
    them is read as a number that is not an integer. *)
Definition months_weight (cols : list string) (rs : list (list pyval)) : Z :=
  sumZ (fun r => sumZ (fun m => Z.abs (as_int (cell cols r m))) all_months) rs.

Definition magnitudes_total (parse_number : string -> option reading)
    (cols : list string) (rs : list (list pyval)) : Z :=
  sumZ (fun r => sumZ (fun m => magnitude parse_number (cell cols r m))
                      all_months) rs.

Definition integer_readings (parse_number : string -> option reading)
    (cols : list string) (rs : list (list pyval)) : bool :=
  forallb (fun r => forallb (fun m => integer_reading parse_number
                                        (cell cols r m)) all_months) rs.

(** The keys of the two grouped views, and the month columns a table
    has. *)
Definition unit_keys : list string := ["Scenario"; "business_unit"].

Definition account_keys : list string := ["Account"; "Year"].

Definition present_months (cols : list string) : list string :=
  List.filter (has_col cols) all_months.

(** *** Invariants of a grouped sum

    [P] is a property of the numbers being summed that sums keep, [n] the
    number of grouping keys. *)

Definition group_value (g : list pyval * option pyval) : pyval :=
  default (VInt 0) (snd g).

Definition groups_total (sel : list pyval -> bool) (gs : groups) : Z :=
  sumZ (fun g => if sel (fst g) then as_int (group_value g) else 0) gs.

Definition value_ok (P : Z -> Prop) (v : pyval) : Prop :=
  match v with
  | VInt z => P z
  | VNaN => True
  | VStr _ | VFloat _ => False
  end.

Definition acc_ok (P : Z -> Prop) (a : option pyval) : Prop :=
  match a with
  | None => True
  | Some (VInt z) => P z
  | Some _ => False
  end.

Definition group_ok (P : Z -> Prop) (n : nat)
    (g : list pyval * option pyval) : Prop :=
  length (fst g) = n /\ acc_ok P (snd g).




(** A value that can be added to a number, and a running sum of such
    values. *)
Definition summable (v : pyval) : Prop :=
  match v with VStr _ => False | _ => True end.

Definition acc_summable (a : option pyval) : Prop :=
  match a with
  | None | Some (VInt _) | Some (VFloat _) => True
  | Some _ => False
  end.

(** The absolute values of the sums of the groups, and of the values
    handed to the grouping, added up. *)
Definition groups_weight (gs : groups) : Z :=
  sumZ (fun g => Z.abs (as_int (group_value g))) gs.

Definition values_weight (kvs : list (list pyval * pyval)) : Z :=
  sumZ (fun kv => Z.abs (as_int (snd kv))) kvs.

Definition melted_weight (rws : list (list pyval)) : Z :=
  sumZ (fun row => match row with
                   | [_; _; _; v] => Z.abs (as_int v)
                   | _ => 0
                   end) rws.

(** What the rows handed to the grouping add up to, per selection of
    keys: rows with a missing key are left out. *)
Definition keyed_total (sel : list pyval -> bool)
    (kvs : list (list pyval * pyval)) : Z :=
  sumZ (fun kv => if negb (existsb is_null (fst kv)) && sel (fst kv)
                  then as_int (snd kv) else 0) kvs.

(** The rows of a melted table with two dimension columns, and of its
    grouped sum. *)
Definition melted_row (P : Z -> Prop) (row : list pyval) : Prop :=
  exists ka kb m v, row = [ka; kb; VStr m; v] /\ value_ok P v.

Definition summed_row (P : Z -> Prop) (row : list pyval) : Prop :=
  exists ka kb z, row = [ka; kb; VInt z] /\ P z.

(** What a melted row adds to the groups selected by [sel]. *)
Definition row_share (sel : list pyval -> bool) (row : list pyval) : Z :=
  match row with
  | [ka; kb; _; v] =>
      if negb (is_null ka || is_null kb) && sel [ka; kb]
      then as_int v else 0
  | _ => 0
  end.

(** A month cell after [pd.to_numeric(_, errors='coerce').abs()], and a
    record after the loop over the month columns [cs]. *)
Definition abs_num (parse_number : string -> option reading) (v : pyval)
  : pyval :=
  match to_numeric_coerce parse_number v with
  | VInt x => VInt (wrap64 (Z.abs x))
  | VFloat _ => VFloat true
  | _ => VNaN
  end.

Definition abs_row (parse_number : string -> option reading)
    (cols : list string) (col : string) (r : list pyval) : list pyval :=
  match index_of col cols with
  | Some i => <[i := abs_num parse_number (cell cols r col)]> r
  | None => r
  end.

Definition abs_row_all (parse_number : string -> option reading)
    (cols cs : list string) (r : list pyval) : list pyval :=
  fold_left (fun r c => abs_row parse_number cols c r) cs r.

(** The labels an exception names are labels the table lacks. *)
Definition absent_labels (cols : list string) (missing : list string) : Prop :=
  missing <> [] /\ Forall (fun c => has_col cols c = false) missing.

(** The groups with key [key]. *)
Definition key_is (key : list pyval) (k : list pyval) : bool :=
  bool_decide (k = key).

(** Tables used as examples. *)
Definition unparseable_table : DataFrame :=
  mkDataFrame
    (["Scenario"; "Year"; "Account"; "business_unit"] ++ all_months)
    [[VStr "Budget"; VInt 2023; VStr "Sales"; VStr "Software";
      VStr "n/a"; VInt 155000; VInt 0; VInt 0; VInt 0; VInt 0;
      VInt 0; VInt 0; VInt 0; VInt 0; VInt 0; VInt 0]].

Definition ledger_table : DataFrame :=
  mkDataFrame
    (["Scenario"; "Year"; "Account"; "business_unit"] ++ all_months)
    [[VStr "Budget"; VInt 2023; VStr "Sales"; VStr "Software";
      VInt 150000; VInt 155000; VInt 0; VInt 0; VInt 0; VInt 0;
      VInt 0; VInt 0; VInt 0; VInt 0; VInt 0; VInt 0];
     [VStr "Actuals"; VInt 2023; VStr "Sales"; VStr "Software";
      VInt 145000; VInt 150000; VInt 0; VInt 0; VInt 0; VInt 0;
      VInt 0; VInt 0; VInt 0; VInt 0; VInt 0; VInt 7];
     [VStr "Actuals"; VInt 2023; VStr "Marketing"; VStr "Hardware";
      VInt (-48000); VInt 50000; VInt 0; VInt 0; VInt 0; VInt 0;
      VInt 0; VInt 0; VInt 0; VInt 0; VInt 0; VInt (-2)];
     [VStr "Actuals"; VInt 2022; VStr "Operations"; VStr "Hardware";
      VInt (-100); VInt (-200); VInt 0; VInt 0; VInt 0; VInt 0;
      VInt 0; VInt 0; VInt 0; VInt 0; VInt 0; VInt 0]].

Definition partial_table : DataFrame :=
  mkDataFrame ["Scenario"; "Year"; "Account"; "business_unit"; "Jan"; "Mar"]
    [[VStr "Actuals"; VInt 2023; VStr "Marketing"; VStr "Software";
      VInt (-5); VStr "7"];
     [VStr "Actuals"; VInt 2023; VStr "Marketing"; VStr "Hardware";
      VStr "n/a"; VInt 2];
     [VStr "Actuals"; VInt 2022; VStr "Operations"; VStr "Software";
      VNaN; VInt (-1)];
     [VStr "Budget"; VInt 2023; VStr "Sales"; VStr "Software";
      VInt 9; VInt 9]].

Definition no_account_table : DataFrame :=
  mkDataFrame (["Scenario"; "Year"; "business_unit"] ++ all_months)
    [[VStr "Budget"; VInt 2023; VStr "Software";
      VInt 150000; VInt 155000; VInt 0; VInt 0; VInt 0; VInt 0;
      VInt 0; VInt 0; VInt 0; VInt 0; VInt 0; VInt 0]].

(** Two cells of 2^62 in one record; a cell of -2^63 in a Marketing
    record; a record without its business unit; a cell of -2^63 in a
    Sales record; a table without Sales records. *)
Definition overflow_table : DataFrame :=
  mkDataFrame
    (["Scenario"; "Year"; "Account"; "business_unit"] ++ all_months)
    [[VStr "Budget"; VInt 2023; VStr "Sales"; VStr "Software";
      VInt 4611686018427387904; VInt 4611686018427387904; VInt 0; VInt 0;
      VInt 0; VInt 0; VInt 0; VInt 0; VInt 0; VInt 0; VInt 0; VInt 0]].


Definition unkeyed_table : DataFrame :=
  mkDataFrame
    (["Scenario"; "Year"; "Account"; "business_unit"] ++ all_months)
    [[VStr "Budget"; VInt 2023; VStr "Sales"; VNaN;
      VInt 150000; VInt 155000; VInt 0; VInt 0; VInt 0; VInt 0;
      VInt 0; VInt 0; VInt 0; VInt 0; VInt 0; VInt 0]].

Definition int64_min_sales_table : DataFrame :=
  mkDataFrame
    (["Scenario"; "Year"; "Account"; "business_unit"] ++ all_months)
    [[VStr "Budget"; VInt 2023; VStr "Sales"; VStr "Software";
      VInt (-9223372036854775808); VInt 0; VInt 0; VInt 0; VInt 0; VInt 0;
      VInt 0; VInt 0; VInt 0; VInt 0; VInt 0; VInt 0]].

Definition costs_table : DataFrame :=
  mkDataFrame
    (["Scenario"; "Year"; "Account"; "business_unit"] ++ all_months)
    [[VStr "Actuals"; VInt 2023; VStr "Marketing"; VStr "Hardware";
      VInt (-48000); VInt 50000; VInt 0; VInt 0; VInt 0; VInt 0;
      VInt 0; VInt 0; VInt 0; VInt 0; VInt 0; VInt (-2)];
     [VStr "Budget"; VInt 2023; VStr "Operations"; VStr "Software";
      VInt (-100); VInt (-200); VInt 0; VInt 0; VInt 0; VInt 0;
      VInt 0; VInt 0; VInt 0; VInt 0; VInt 0; VInt 0]].

(** A reader that also knows one number that is not an integer. *)
Definition parse_int_or_half (s : string) : option reading :=
  if String.eqb s "1.5" then Some (NonInteger true) else parse_int s.

Definition idle_world : World := mkWorld (fun _ => None) (fun _ _ => inl "").

Definition sheet_url : string :=
  "https://docs.google.com/spreadsheets/d/abc123/edit".

(** A world in which the sheet cannot be reached, and one in which the
    sheet has changed. *)
Definition down_world : World :=
  mkWorld (fun _ => None) (fun _ _ => inl "APIError").

Definition changed_world : World :=
  mkWorld (fun _ => None) (fun _ _ => inr ledger_table).

(** ** Further quantities *)

(** The two filters of [calculate_metrics], on one record. *)
Definition is_sales_account (cols : list string) (r : list pyval) : bool :=
  py_eq (cell cols r "Account") (VStr "Sales").

Definition is_cost_account (cols : list string) (r : list pyval) : bool :=
  isin [VStr "Marketing"; VStr "Operations"] (cell cols r "Account").

(** The sum of the twelve month cells of the records of [rs]. *)
Definition months_total (cols : list string) (rs : list (list pyval)) : Z :=
  sumZ (fun r => sumZ (fun m => as_int (cell cols r m)) all_months) rs.

(** The order of groups: one key before another. *)
Definition key_lt (k1 k2 : list pyval) : Prop := key_compare k1 k2 = Lt.

(** The keys of the rows of a grouped view, in row order. *)
Definition row_keys (keys : list string) (out : DataFrame)
  : list (list pyval) :=
  map (fun row => map (cell (columns out) row) keys) (rows out).

(** A row of a melted table with two dimension columns. *)
Definition melted_shape (row : list pyval) : Prop :=
  exists ka kb m v, row = [ka; kb; VStr m; v].

(** What the eight calls of the metric columns draw when none of them
    raises. *)
Definition indicators (metrics : MetricsBundle) : list event :=
  [StPlotlyChart (Indicator "Total Accounts Receivable"
                    (Whole (accounts_receivable metrics)));
   StPlotlyChart (Gauge "Current Ratio" (Ratio (current_ratio metrics)) 3);
   StPlotlyChart (Indicator "Total Accounts Payable"
                    (Whole (accounts_payable metrics)));
   StPlotlyChart (Gauge "In Stock" (Whole (VInt 10)) 31);
   StPlotlyChart (Indicator "Equity Ratio" (Ratio (equity_ratio metrics)));
   StPlotlyChart (Gauge "Out Stock" (Whole (VInt 7)) 31);
   StPlotlyChart (Indicator "Debt Equity" (Ratio (debt_equity metrics)));
   StPlotlyChart (Gauge "Delay" (Whole (VInt 28)) 31)].

(** The filter of the monthly view, on one record. *)
Definition software_sales (cols : list string) (r : list pyval) : bool :=
  sales_2023 cols r && py_eq (cell cols r "business_unit") (VStr "Software").

(** No occurrence of [sep] in [u ++ t] starts inside [u]. *)
Fixpoint unmatched (sep u t : string) : bool :=
  match u with
  | EmptyString => true
  | String c u' =>
      negb (String.prefix sep (String.append u t)) && unmatched sep u' t
  end.

(** * Properties *)

(** ** The model on small inputs *)

(** The scenario of the specification, on the template's column order. *)
Example scenario_table_view :
  process_sales_data_by_unit scenario_table
  = (mkDataFrame ["Scenario"; "business_unit"; "sales"]
       [[VStr "Budget"; VStr "Software"; VInt 305000]], []).
Proof. vm_compute. reflexivity. Qed.

(** Groups come out in key order, whatever the order of the records. *)
Example ledger_by_unit :
  process_sales_data_by_unit ledger_table
  = (mkDataFrame ["Scenario"; "business_unit"; "sales"]
       [[VStr "Actuals"; VStr "Software"; VInt 295007];
        [VStr "Budget"; VStr "Software"; VInt 305000]], []).
Proof. vm_compute. reflexivity. Qed.

(** The monthly view is the melted table itself, one row per month. *)
Example scenario_monthly :
  process_monthly_sales_data scenario_table
  = (mkDataFrame ["Scenario"; "month"; "sales"]
       (map (fun mv => [VStr "Budget"; VStr (fst mv); VInt (snd mv)])
            [("Jan", 150000); ("Feb", 155000); ("Mar", 0); ("Apr", 0);
             ("May", 0); ("Jun", 0); ("Jul", 0); ("Aug", 0); ("Sep", 0);
             ("Oct", 0); ("Nov", 0); ("Dec", 0)]), []).
Proof. vm_compute. reflexivity. Qed.

(** The yearly view on a table with two month columns: negative cells
    count by their magnitude, "7" is read as 7, "n/a" and the missing
    cell add nothing. *)
Example scenario_yearly :
  process_yearly_account_data parse_int partial_table
  = (mkDataFrame ["Account"; "Year"; "sales"]
       [[VStr "Marketing"; VInt 2023; VInt 14];
        [VStr "Operations"; VInt 2022; VInt 1]], []).
Proof. vm_compute. reflexivity. Qed.

(** A record without a value under a grouping key belongs to no group:
    its month cells are in no sum. *)
Example missing_key_leaves_no_group :
  process_sales_data_by_unit unkeyed_table
  = (mkDataFrame ["Scenario"; "business_unit"; "sales"] [], []).
Proof. vm_compute. reflexivity. Qed.

(** Sums are 64-bit sums: 2^62 + 2^62 comes out as -2^63. *)
Example overflow_by_unit :
  process_sales_data_by_unit overflow_table
  = (mkDataFrame ["Scenario"; "business_unit"; "sales"]
       [[VStr "Budget"; VStr "Software"; VInt (-9223372036854775808)]], []).
Proof. vm_compute. reflexivity. Qed.

(** A string read as a number that is not an integer makes the sum of
    its group a float, of which the model keeps that it is at least 0. *)
Example non_integer_reading :
  process_yearly_account_data parse_int_or_half
    (mkDataFrame ["Scenario"; "Year"; "Account"; "Jan"; "Feb"]
       [[VStr "Actuals"; VInt 2023; VStr "Marketing"; VStr "1.5"; VInt 2];
        [VStr "Actuals"; VInt 2023; VStr "Operations"; VStr "3"; VInt (-4)]])
  = (mkDataFrame ["Account"; "Year"; "sales"]
       [[VStr "Marketing"; VInt 2023; VFloat true];
        [VStr "Operations"; VInt 2023; VInt 7]], []).
Proof. vm_compute. reflexivity. Qed.

Example scenario_metrics :
  calculate_metrics scenario_table
  = (mkMetrics (VInt 305000) (VInt 0) (7538 # 100) (110 # 100) (186 # 100),
     []).
Proof. vm_compute. reflexivity. Qed.

(** A string among the month cells of the Sales records makes the sum
    of the metrics fail, and the bundle of zeros is returned. *)
Example unparseable_metrics :
  calculate_metrics unparseable_table
  = (zero_metrics, [StError "Error calculating metrics" TypeError]).
Proof. vm_compute. reflexivity. Qed.

Example sheet_id_example :
  load_google_sheets_data_uncached sample_world "{}" sheet_url
  = (Some scenario_table, None).
Proof. vm_compute. reflexivity. Qed.

Example invalid_url_example :
  load_google_sheets_data_uncached sample_world "{}" "https://example.org/x"
  = (None, Some "Invalid Google Sheets URL format").
Proof. vm_compute. reflexivity. Qed.

Example split_example :
  split "/d/" "a/d/b/d//d/" = ["a"; "b"; EmptyString; EmptyString].
Proof. vm_compute. reflexivity. Qed.

(** The refresh button empties the cache at the end of the run. *)
Example refresh_clears :
  snd (script parse_int sample_world 0 (Some "{}") sheet_url None true ∅) = ∅.
Proof. reflexivity. Qed.

(** A Sales cell of -2^63 makes the receivables -2^63: their indicator
    raises, and the run ends after the data preview. *)
Example negative_receivable_ends_run :
  calculate_metrics int64_min_sales_table
  = (mkMetrics (VInt (-9223372036854775808)) (VInt 0)
       (7538 # 100) (110 # 100) (186 # 100), [])
  /\ fst (script parse_int idle_world 0 None EmptyString
            (Some (inr int64_min_sales_table)) true ∅)
     = [StWarning "Using CSV fallback data."; StInfo "Data Source";
        StDataframe int64_min_sales_table; StException ValueError].
Proof. split; vm_compute; reflexivity. Qed.

(** ** Sums *)

Lemma sumZ_app {A} (f : A -> Z) (l1 l2 : list A) :
  sumZ f (l1 ++ l2) = sumZ f l1 + sumZ f l2.
Proof. induction l1 as [|x l1 IH]; simpl; [reflexivity|]. rewrite IH. lia. Qed.

Lemma sumZ_map {A B} (f : B -> Z) (g : A -> B) (l : list A) :
  sumZ f (map g l) = sumZ (fun x => f (g x)) l.
Proof. induction l as [|x l IH]; simpl; congruence. Qed.

Lemma sumZ_ext {A} (f g : A -> Z) (l : list A) :
  (forall x, In x l -> f x = g x) -> sumZ f l = sumZ g l.
Proof.
  induction l as [|x l IH]; simpl; intros H; [reflexivity|].
  rewrite (H x), IH; auto.
Qed.

Lemma sumZ_flat_map {A B} (f : B -> Z) (g : A -> list B) (l : list A) :
  sumZ f (flat_map g l) = sumZ (fun x => sumZ f (g x)) l.
Proof.
  induction l as [|x l IH]; simpl; [reflexivity|].
  rewrite sumZ_app, IH. reflexivity.
Qed.

Lemma sumZ_plus {A} (f g : A -> Z) (l : list A) :
  sumZ (fun x => f x + g x) l = sumZ f l + sumZ g l.
Proof. induction l as [|x l IH]; simpl; lia. Qed.

Lemma sumZ_zero {A} (l : list A) : sumZ (fun _ => 0) l = 0.
Proof. induction l; simpl; lia. Qed.

Lemma sumZ_swap {A B} (f : A -> B -> Z) (la : list A) (lb : list B) :
  sumZ (fun a => sumZ (f a) lb) la
  = sumZ (fun b => sumZ (fun a => f a b) la) lb.
Proof.
  induction la as [|a la IH]; simpl.
  - symmetry. apply sumZ_zero.
  - rewrite IH, <- sumZ_plus. reflexivity.
Qed.

Lemma sumZ_filter {A} (f : A -> Z) (p : A -> bool) (l : list A) :
  sumZ f (List.filter p l) = sumZ (fun x => if p x then f x else 0) l.
Proof.
  induction l as [|x l IH]; simpl; [reflexivity|].
  destruct (p x); simpl; rewrite IH; reflexivity.
Qed.

Lemma sumZ_nonneg {A} (f : A -> Z) (l : list A) :
  (forall x, In x l -> 0 <= f x) -> 0 <= sumZ f l.
Proof.
  induction l as [|x l IH]; simpl; intros H; [lia|].
  specialize (H x (or_introl eq_refl)) as Hx.
  assert (0 <= sumZ f l) by (apply IH; auto). lia.
Qed.

Lemma sumZ_member {A} (f : A -> Z) (l : list A) (x : A) :
  (forall y, In y l -> 0 <= f y) -> In x l -> f x <= sumZ f l.
Proof.
  induction l as [|y l IH]; simpl; intros Hf Hx; [destruct Hx|].
  assert (0 <= sumZ f l) by (apply sumZ_nonneg; auto).
  destruct Hx as [->|Hx].
  - lia.
  - specialize (IH (fun z Hz => Hf z (or_intror Hz)) Hx).
    specialize (Hf y (or_introl eq_refl)). lia.
Qed.

Lemma sumZ_le {A} (f g : A -> Z) (l : list A) :
  (forall x, In x l -> f x <= g x) -> sumZ f l <= sumZ g l.
Proof.
  induction l as [|x l IH]; simpl; intros H; [lia|].
  specialize (H x (or_introl eq_refl)) as Hx.
  assert (sumZ f l <= sumZ g l) by (apply IH; auto). lia.
Qed.

Lemma sumZ_abs {A} (f : A -> Z) (l : list A) :
  Z.abs (sumZ f l) <= sumZ (fun x => Z.abs (f x)) l.
Proof. induction l as [|x l IH]; simpl; lia. Qed.


(** ** 64-bit integers *)

Lemma wrap64_small (z : Z) : Z.abs z <= max64 -> wrap64 z = z.
Proof.
  intros H. unfold wrap64. unfold min64, max64 in *.
  rewrite Z.mod_small; lia.
Qed.

Lemma float_exact_max64 : float_exact <= max64.
Proof. discriminate. Qed.

(** ** Columns and cells *)

Lemma index_of_here (c : string) (cols : list string) :
  index_of c (c :: cols) = Some O.
Proof. cbn [index_of]. rewrite String.eqb_refl. reflexivity. Qed.

Lemma index_of_next (c c' : string) (cols : list string) :
  String.eqb c c' = false -> index_of c (c' :: cols) = S <$> index_of c cols.
Proof. intros H. cbn [index_of]. rewrite H. reflexivity. Qed.

Lemma cell_has_col (cols : list string) (r : list pyval) (c : string) :
  cell cols r c <> VNaN -> has_col cols c = true.
Proof.
  unfold cell, has_col. destruct (index_of c cols); [reflexivity|congruence].
Qed.

Lemma cell_value_has_col (cols : list string) (r : list pyval) (c : string)
    (v : pyval) :
  cell cols r c = v -> v <> VNaN -> has_col cols c = true.
Proof. intros <- Hv. eapply cell_has_col, Hv. Qed.

Lemma cell_absent (cols : list string) (r : list pyval) (c : string) :
  has_col cols c = false -> cell cols r c = VNaN.
Proof.
  unfold cell, has_col. destruct (index_of c cols); [discriminate|reflexivity].
Qed.

Lemma no_missing (cols cs : list string) :
  forallb (has_col cols) cs = true ->
  List.filter (fun c => negb (has_col cols c)) cs = [].
Proof.
  induction cs as [|c cs IH]; simpl; [reflexivity|].
  intros [Hc Hcs]%andb_prop. rewrite Hc. simpl. auto.
Qed.

Lemma some_missing (cols cs : list string) (c : string) :
  In c cs -> has_col cols c = false ->
  exists m ms, List.filter (fun c => negb (has_col cols c)) cs = m :: ms.
Proof.
  intros Hin Hc.
  assert (H : In c (List.filter (fun c => negb (has_col cols c)) cs)).
  { apply filter_In. split; [assumption|]. rewrite Hc. reflexivity. }
  destruct (List.filter _ cs) as [|m ms]; [destruct H|eauto].
Qed.

Lemma missing_are_absent (cols cs : list string) :
  Forall (fun c => In c cs /\ has_col cols c = false)
    (List.filter (fun c => negb (has_col cols c)) cs).
Proof.
  apply Forall_forall. intros c [Hin Hc]%list_elem_of_In%filter_In.
  split; [assumption|]. destruct (has_col cols c); [discriminate|reflexivity].
Qed.

(** A mask computed row by row selects the rows it holds for. *)
Lemma boolean_index_map (df : DataFrame) (p : list pyval -> bool) :
  boolean_index df (map p (rows df))
  = mkDataFrame (columns df) (List.filter p (rows df)).
Proof.
  unfold boolean_index. f_equal.
  induction (rows df) as [|r rs IH]; simpl; [reflexivity|].
  destruct (p r); simpl; rewrite IH; reflexivity.
Qed.

Lemma zip_with_map2 {A B C D} (f : B -> C -> D) (g : A -> B) (h : A -> C)
    (l : list A) :
  zip_with f (map g l) (map h l) = map (fun x => f (g x) (h x)) l.
Proof. induction l as [|x l IH]; simpl; congruence. Qed.

Lemma zip_with_map_r {A B C} (f : A -> B -> C) (g : A -> B) (l : list A) :
  zip_with f l (map g l) = map (fun x => f x (g x)) l.
Proof. induction l as [|x l IH]; simpl; congruence. Qed.

(** ** Grouped sums *)

Lemma pyval_compare_eq (a b : pyval) : pyval_compare a b = Eq -> a = b.
Proof.
  destruct a, b; simpl; try discriminate; try reflexivity.
  - intros H%Z.compare_eq. congruence.
  - intros H%String.compare_eq_iff. congruence.
  - destruct nonneg, nonneg0; simpl; congruence.
Qed.

Lemma key_compare_eq (k1 k2 : list pyval) : key_compare k1 k2 = Eq -> k1 = k2.
Proof.
  revert k2. induction k1 as [|a k1 IH]; intros [|b k2]; simpl;
    try discriminate; try reflexivity.
  destruct (pyval_compare a b) eqn:E; try discriminate.
  intros H. apply pyval_compare_eq in E. f_equal; auto.
Qed.

(** Values that are not strings can always be added up. *)
Lemma observe_total (a : option pyval) (v : pyval) :
  acc_summable a -> summable v ->
  exists a', observe a v = Ok a' /\ acc_summable a'.
Proof.
  destruct v as [z|s| |p]; cbn [summable]; intros Ha Hv; try contradiction;
    unfold observe; cbn [is_null]; eauto;
    destruct a as [[x|s| |q]|]; cbn [acc_summable] in Ha; try contradiction;
    cbn [py_add mbind res_bind]; eexists; (split; [reflexivity|exact I]).
Qed.

Lemma upsert_total (k : list pyval) (v : pyval) (gs : groups) :
  Forall (fun g => acc_summable (snd g)) gs -> summable v ->
  exists gs', upsert k v gs = Ok gs'
              /\ Forall (fun g => acc_summable (snd g)) gs'.
Proof.
  intros Hgs Hv. induction Hgs as [|[k' a] gs Ha Hgs IH]; cbn [upsert].
  - destruct (observe_total None v I Hv) as (a' & -> & Ha').
    cbn [mbind res_bind]. eexists; split; [reflexivity|].
    constructor; [exact Ha'|constructor].
  - cbn [snd] in Ha. destruct (key_compare k k').
    + destruct (observe_total a v Ha Hv) as (a' & -> & Ha').
      cbn [mbind res_bind]. eexists; split; [reflexivity|].
      constructor; assumption.
    + destruct (observe_total None v I Hv) as (a' & -> & Ha').
      cbn [mbind res_bind]. eexists; split; [reflexivity|].
      constructor; [exact Ha'|]. constructor; assumption.
    + destruct IH as (gs' & -> & Hgs'). cbn [mbind res_bind].
      eexists; split; [reflexivity|]. constructor; assumption.
Qed.

Lemma group_rows_total (kvs : list (list pyval * pyval)) (gs : groups) :
  Forall (fun kv => summable (snd kv)) kvs ->
  Forall (fun g => acc_summable (snd g)) gs ->
  exists gs', group_rows kvs gs = Ok gs'.
Proof.
  intros Hkvs. revert gs.
  induction Hkvs as [|[k v] kvs Hv Hkvs IH]; intros gs Hgs;
    cbn [group_rows]; [eauto|].
  destruct (existsb is_null k); [apply IH, Hgs|].
  destruct (upsert_total k v gs Hgs Hv) as (gs1 & -> & Hgs1).
  cbn [mbind res_bind]. apply IH, Hgs1.
Qed.

Lemma groups_weight_nonneg (gs : groups) : 0 <= groups_weight gs.
Proof. apply sumZ_nonneg. intros g _. apply Z.abs_nonneg. Qed.

Lemma values_weight_nonneg (kvs : list (list pyval * pyval)) :
  0 <= values_weight kvs.
Proof. apply sumZ_nonneg. intros kv _. apply Z.abs_nonneg. Qed.

Lemma groups_weight_cons (k : list pyval) (a : option pyval) (gs : groups) :
  groups_weight ((k, a) :: gs)
  = Z.abs (as_int (default (VInt 0) a)) + groups_weight gs.
Proof. reflexivity. Qed.

Lemma groups_total_cons (sel : list pyval -> bool) (k : list pyval)
    (a : option pyval) (gs : groups) :
  groups_total sel ((k, a) :: gs)
  = (if sel k then as_int (default (VInt 0) a) else 0) + groups_total sel gs.
Proof. reflexivity. Qed.

Lemma values_weight_cons (k : list pyval) (v : pyval)
    (kvs : list (list pyval * pyval)) :
  values_weight ((k, v) :: kvs) = Z.abs (as_int v) + values_weight kvs.
Proof. reflexivity. Qed.

Section GroupInvariant.

(** [P] holds of the numbers being summed and is kept by sums; [n] is
    the number of grouping keys.  The sums are exact as long as the
    absolute values of what is added stay within 64 bits. *)
Variable P : Z -> Prop.
Variable n : nat.
Hypothesis P_add : forall x y, P x -> P y -> P (x + y).

Lemma observe_ok (a : option pyval) (v : pyval) :
  acc_ok P a -> value_ok P v ->
  Z.abs (as_int (default (VInt 0) a)) + Z.abs (as_int v) <= max64 ->
  exists a', observe a v = Ok a' /\ acc_ok P a'
             /\ as_int (default (VInt 0) a')
                = as_int (default (VInt 0) a) + as_int v.
Proof.
  destruct v as [z|s| |p]; cbn [value_ok]; intros Ha Hv Hb;
    try contradiction; unfold observe; cbn [is_null].
  - destruct a as [[x|s| |q]|]; simpl in Ha, Hb;
      try contradiction; cbn [py_add mbind res_bind].
    + rewrite wrap64_small by lia.
      eexists; split; [reflexivity|]. split; simpl; [auto|lia].
    + eexists; split; [reflexivity|]. split; simpl; [auto|lia].
  - exists a. repeat split; auto. simpl. lia.
Qed.

Lemma upsert_ok (k : list pyval) (v : pyval) (gs : groups) :
  Forall (group_ok P n) gs -> length k = n -> value_ok P v ->
  groups_weight gs + Z.abs (as_int v) <= max64 ->
  exists gs', upsert k v gs = Ok gs' /\ Forall (group_ok P n) gs'
    /\ (forall sel, groups_total sel gs'
                    = groups_total sel gs + (if sel k then as_int v else 0))
    /\ groups_weight gs' <= groups_weight gs + Z.abs (as_int v).
Proof.
  intros Hgs Hk Hv. induction Hgs as [|[k' a] gs [Hk' Ha] Hgs IH];
    cbn [upsert]; intros Hb.
  - destruct (observe_ok None v I Hv) as (a' & -> & Ha' & Hsum).
    { cbn in *. lia. }
    cbn [mbind res_bind]. eexists; split; [reflexivity|].
    rewrite groups_weight_cons. simpl in Hsum. split; [|split].
    + constructor; [split; assumption|constructor].
    + intros sel. rewrite groups_total_cons, Hsum. destruct (sel k); lia.
    + rewrite Hsum. lia.
  - cbn [fst snd] in Hk', Ha.
    pose proof (groups_weight_nonneg gs) as Hw.
    rewrite groups_weight_cons in Hb.
    destruct (key_compare k k') eqn:E.
    + apply key_compare_eq in E; subst k'.
      destruct (observe_ok a v Ha Hv) as (a' & -> & Ha' & Hsum); [lia|].
      cbn [mbind res_bind]. eexists; split; [reflexivity|].
      rewrite !groups_weight_cons. split; [|split].
      * constructor; [split; assumption|assumption].
      * intros sel. rewrite !groups_total_cons, Hsum. destruct (sel k); lia.
      * rewrite Hsum. lia.
    + destruct (observe_ok None v I Hv) as (a' & -> & Ha' & Hsum).
      { cbn in *. lia. }
      cbn [mbind res_bind]. eexists; split; [reflexivity|].
      rewrite !groups_weight_cons. simpl in Hsum. split; [|split].
      * constructor; [split; assumption|].
        constructor; [split; assumption|assumption].
      * intros sel. rewrite !groups_total_cons, Hsum.
        destruct (sel k), (sel k'); lia.
      * rewrite Hsum. lia.
    + destruct IH as (gs' & -> & Hgs' & Hsum & Hw'); [lia|].
      cbn [mbind res_bind]. eexists; split; [reflexivity|].
      rewrite !groups_weight_cons. split; [|split].
      * constructor; [split; assumption|assumption].
      * intros sel. rewrite !groups_total_cons, Hsum. lia.
      * lia.
Qed.

Lemma group_rows_ok (kvs : list (list pyval * pyval)) (gs : groups) :
  Forall (fun kv => length (fst kv) = n /\ value_ok P (snd kv)) kvs ->
  Forall (group_ok P n) gs ->
  groups_weight gs + values_weight kvs <= max64 ->
  exists gs', group_rows kvs gs = Ok gs' /\ Forall (group_ok P n) gs'
    /\ forall sel, groups_total sel gs'
                   = groups_total sel gs + keyed_total sel kvs.
Proof.
  intros Hkvs. revert gs.
  induction Hkvs as [|[k v] kvs [Hk Hv] Hkvs IH]; intros gs Hgs Hb.
  - exists gs. split; [reflexivity|]. split; [assumption|].
    intros sel. unfold keyed_total; simpl. lia.
  - simpl in Hk, Hv. cbn [group_rows].
    pose proof (values_weight_nonneg kvs) as Hw.
    pose proof (groups_weight_nonneg gs) as Hg.
    rewrite values_weight_cons in Hb.
    destruct (existsb is_null k) eqn:Enull.
    + destruct (IH gs Hgs) as (gs' & Hrun & Hgs' & Hsum); [lia|].
      exists gs'. split; [assumption|]. split; [assumption|].
      intros sel. rewrite Hsum.
      unfold keyed_total; simpl. rewrite Enull. simpl. lia.
    + destruct (upsert_ok k v gs Hgs Hk Hv)
        as (gs1 & -> & Hgs1 & Hsum1 & Hw1); [lia|].
      destruct (IH gs1 Hgs1) as (gs' & Hrun & Hgs' & Hsum); [lia|].
      exists gs'. split; [assumption|]. split; [assumption|].
      intros sel. rewrite Hsum, Hsum1. unfold keyed_total; simpl.
      rewrite Enull. simpl. lia.
Qed.

End GroupInvariant.

(** *** Sums of numbers that are at least 0

    Here a number that is not an integer may take part: the sum is then
    a float known to be at least 0. *)






(** *** The grouped sum of a melted table with two dimension columns *)

Section GroupbyMelted.

Variable P : Z -> Prop.
Hypothesis P_zero : P 0.
Hypothesis P_add : forall x y, P x -> P y -> P (x + y).

(** The two dimension labels; they differ from each other and from the
    value label. *)
Variables a b : string.
Hypothesis b_not_a : String.eqb b a = false.
Hypothesis sales_not_a : String.eqb "sales" a = false.
Hypothesis sales_not_b : String.eqb "sales" b = false.

Lemma melted_cells (ka kb m v : pyval) :
  cell [a; b; "month"; "sales"] [ka; kb; m; v] a = ka
  /\ cell [a; b; "month"; "sales"] [ka; kb; m; v] b = kb
  /\ cell [a; b; "month"; "sales"] [ka; kb; m; v] "sales" = v.
Proof.
  unfold cell.
  rewrite index_of_here, (index_of_next b a), index_of_here,
    (index_of_next "sales" a), (index_of_next "sales" b) by assumption.
  repeat split.
Qed.

Lemma summed_cells (ka kb v : pyval) :
  cell [a; b; "sales"] [ka; kb; v] a = ka
  /\ cell [a; b; "sales"] [ka; kb; v] b = kb
  /\ cell [a; b; "sales"] [ka; kb; v] "sales" = v.
Proof.
  unfold cell.
  rewrite index_of_here, (index_of_next b a), index_of_here,
    (index_of_next "sales" a), (index_of_next "sales" b) by assumption.
  repeat split.
Qed.

Lemma melted_labels :
  List.filter (fun c => negb (has_col [a; b; "month"; "sales"] c)) [a; b] = []
  /\ has_col [a; b; "month"; "sales"] "sales" = true.
Proof.
  split.
  - apply no_missing. unfold has_col. cbn [forallb].
    rewrite index_of_here, (index_of_next b a), index_of_here
      by assumption.
    reflexivity.
  - unfold has_col.
    rewrite (index_of_next "sales" a), (index_of_next "sales" b)
      by assumption.
    reflexivity.
Qed.

(** Without a string among its values the grouped sum succeeds. *)
Lemma groupby_total (rws : list (list pyval)) :
  Forall (fun row => exists ka kb m v,
                       row = [ka; kb; VStr m; v] /\ summable v) rws ->
  exists out,
    groupby_sum (mkDataFrame [a; b; "month"; "sales"] rws) [a; b] "sales"
    = Ok out
    /\ columns out = [a; b; "sales"].
Proof.
  intros Hrws. unfold groupby_sum. cbn [columns rows].
  destruct melted_labels as [-> ->].
  destruct (group_rows_total
              (map (fun r => (map (cell [a; b; "month"; "sales"] r) [a; b],
                              cell [a; b; "month"; "sales"] r "sales")) rws)
              []) as (gs & ->).
  - apply Forall_map. eapply Forall_impl; [exact Hrws|].
    intros row (ka & kb & m & v & -> & Hv). cbn [snd].
    destruct (melted_cells ka kb (VStr m) v) as (_ & _ & ->). exact Hv.
  - constructor.
  - cbn [mbind res_bind]. eexists. split; reflexivity.
Qed.


(** With numbers and missing values only, whose absolute values add up
    within 64 bits, the sums are the exact ones. *)
Lemma groupby_melted (rws : list (list pyval)) :
  Forall (melted_row P) rws ->
  melted_weight rws <= max64 ->
  exists out,
    groupby_sum (mkDataFrame [a; b; "month"; "sales"] rws) [a; b] "sales"
    = Ok out
    /\ columns out = [a; b; "sales"]
    /\ Forall (summed_row P) (rows out)
    /\ forall sel, sel_total sel [a; b] "sales" out
                   = sumZ (row_share sel) rws.
Proof.
  intros Hrws Hbound. unfold groupby_sum.
  cbn [columns rows]. destruct melted_labels as [-> ->].
  set (kvs := map _ rws).
  assert (Hkvs : Forall (fun kv => length (fst kv) = 2%nat
                                   /\ value_ok P (snd kv)) kvs).
  { subst kvs. apply Forall_map. eapply Forall_impl; [eassumption|].
    intros row (ka & kb & m & v & -> & Hv). cbn [fst snd map]. split.
    - reflexivity.
    - destruct (melted_cells ka kb (VStr m) v) as (_ & _ & ->). exact Hv. }
  assert (Hweight : values_weight kvs = melted_weight rws).
  { subst kvs. unfold values_weight, melted_weight. rewrite sumZ_map.
    apply sumZ_ext. intros row Hin. rewrite Forall_forall in Hrws.
    apply list_elem_of_In in Hin.
    destruct (Hrws _ Hin) as (ka & kb & m & v & -> & Hv). cbn [snd].
    destruct (melted_cells ka kb (VStr m) v) as (_ & _ & ->). reflexivity. }
  destruct (group_rows_ok P 2 P_add kvs [] Hkvs (List.Forall_nil _))
    as (gs & -> & Hgs & Hsum).
  { rewrite Hweight. exact Hbound. }
  eexists. split; [reflexivity|]. cbn [columns rows app].
  split; [reflexivity|]. split.
  - apply Forall_map. eapply Forall_impl; [exact Hgs|].
    intros [k acc] [Hk Hacc]. cbn [fst snd] in *.
    destruct k as [|ka [|kb [|]]]; try discriminate.
    unfold group_value, summed_row; cbn [snd fst app].
    destruct acc as [[z|s| |]|]; simpl in Hacc; try contradiction;
      simpl; eauto.
  - intros sel. unfold sel_total. cbn [columns rows].
    rewrite sumZ_map.
    transitivity (groups_total sel gs).
    + unfold groups_total. apply sumZ_ext. intros [k acc] Hin.
      rewrite Forall_forall in Hgs.
      apply list_elem_of_In in Hin.
      destruct (Hgs _ Hin) as [Hk _]. cbn [fst snd] in *.
      destruct k as [|ka [|kb [|]]]; try discriminate.
      cbn [app map]. unfold group_value; cbn [snd].
      destruct (summed_cells ka kb (default (VInt 0) acc))
        as (-> & -> & ->).
      reflexivity.
    + rewrite Hsum. unfold groups_total, keyed_total; simpl.
      subst kvs. rewrite sumZ_map. apply sumZ_ext.
      intros row Hin. rewrite Forall_forall in Hrws.
      apply list_elem_of_In in Hin.
      destruct (Hrws _ Hin) as (ka & kb & m & v & -> & Hv).
      cbn [fst snd map row_share existsb].
      destruct (melted_cells ka kb (VStr m) v) as (-> & -> & ->).
      rewrite orb_false_r. reflexivity.
Qed.

End GroupbyMelted.

(** ** The order of keys *)

Lemma ascii_compare_lt_trans (a b c : ascii) :
  Ascii.compare a b = Lt -> Ascii.compare b c = Lt -> Ascii.compare a c = Lt.
Proof.
  unfold Ascii.compare. rewrite !N.compare_lt_iff. apply N.lt_trans.
Qed.

Lemma string_compare_lt_trans (s1 s2 s3 : string) :
  String.compare s1 s2 = Lt -> String.compare s2 s3 = Lt ->
  String.compare s1 s3 = Lt.
Proof.
  revert s2 s3. induction s1 as [|a s1 IH]; intros [|b s2] [|c s3];
    cbn [String.compare]; try discriminate; try reflexivity.
  destruct (Ascii.compare a b) eqn:Eab; try discriminate;
    destruct (Ascii.compare b c) eqn:Ebc; try discriminate; intros H1 H2.
  - apply Ascii.compare_eq_iff in Eab, Ebc. subst b c.
    assert (Eaa : Ascii.compare a a = Eq)
      by (unfold Ascii.compare; apply N.compare_refl).
    rewrite Eaa. eapply IH; eauto.
  - apply Ascii.compare_eq_iff in Eab. subst b. rewrite Ebc. reflexivity.
  - apply Ascii.compare_eq_iff in Ebc. subst c. rewrite Eab. reflexivity.
  - rewrite (ascii_compare_lt_trans a b c Eab Ebc). reflexivity.
Qed.

Lemma string_compare_refl (s : string) : String.compare s s = Eq.
Proof.
  induction s as [|a s IH]; cbn [String.compare]; [reflexivity|].
  unfold Ascii.compare. rewrite N.compare_refl. exact IH.
Qed.

Lemma pyval_compare_refl (a : pyval) : pyval_compare a a = Eq.
Proof.
  destruct a; cbn [pyval_compare]; try reflexivity.
  - apply Z.compare_refl.
  - apply string_compare_refl.
  - destruct nonneg; reflexivity.
Qed.

Lemma pyval_compare_antisym (a b : pyval) :
  pyval_compare a b = CompOpp (pyval_compare b a).
Proof.
  destruct a, b; cbn [pyval_compare CompOpp]; try reflexivity.
  - apply Z.compare_antisym.
  - apply String.compare_antisym.
  - destruct nonneg, nonneg0; reflexivity.
Qed.

Lemma pyval_compare_lt_trans (a b c : pyval) :
  pyval_compare a b = Lt -> pyval_compare b c = Lt -> pyval_compare a c = Lt.
Proof.
  destruct a, b, c; cbn [pyval_compare]; try discriminate; try reflexivity.
  - rewrite !Z.compare_lt_iff. apply Z.lt_trans.
  - apply string_compare_lt_trans.
  - destruct nonneg, nonneg0, nonneg1; simpl; congruence.
Qed.

Lemma key_compare_antisym (k1 k2 : list pyval) :
  key_compare k1 k2 = CompOpp (key_compare k2 k1).
Proof.
  revert k2. induction k1 as [|a k1 IH]; intros [|b k2];
    cbn [key_compare CompOpp]; try reflexivity.
  rewrite (pyval_compare_antisym a b).
  destruct (pyval_compare b a); cbn [CompOpp]; auto.
Qed.

Lemma key_lt_trans (k1 k2 k3 : list pyval) :
  key_lt k1 k2 -> key_lt k2 k3 -> key_lt k1 k3.
Proof.
  unfold key_lt. revert k2 k3.
  induction k1 as [|a k1 IH]; intros [|b k2] [|c k3];
    cbn [key_compare]; try discriminate; try reflexivity.
  destruct (pyval_compare a b) eqn:Eab; try discriminate;
    destruct (pyval_compare b c) eqn:Ebc; try discriminate; intros H1 H2.
  - apply pyval_compare_eq in Eab, Ebc. subst b c.
    rewrite pyval_compare_refl. eapply IH; eauto.
  - apply pyval_compare_eq in Eab. subst b. rewrite Ebc. reflexivity.
  - apply pyval_compare_eq in Ebc. subst c. rewrite Eab. reflexivity.
  - rewrite (pyval_compare_lt_trans a b c Eab Ebc). reflexivity.
Qed.

Lemma key_lt_irrefl (k : list pyval) : ~ key_lt k k.
Proof.
  unfold key_lt. induction k as [|a k IH]; cbn [key_compare]; [discriminate|].
  rewrite pyval_compare_refl. exact IH.
Qed.

Lemma sorted_keys_nodup (ks : list (list pyval)) :
  StronglySorted key_lt ks -> List.NoDup ks.
Proof.
  induction 1 as [|k ks Hs IH Hall]; constructor; [|exact IH].
  intros Hin. rewrite List.Forall_forall in Hall.
  exact (key_lt_irrefl k (Hall k Hin)).
Qed.

(** ** The keys of the groups *)

Lemma upsert_keys (k : list pyval) (v : pyval) (gs gs' : groups) :
  upsert k v gs = Ok gs' ->
  StronglySorted key_lt (map fst gs) ->
  StronglySorted key_lt (map fst gs')
  /\ forall k', In k' (map fst gs') <-> k' = k \/ In k' (map fst gs).
Proof.
  revert gs'. induction gs as [|[k1 a] gs IH]; intros gs'; cbn [upsert].
  - destruct (observe None v); cbn [mbind res_bind]; [|discriminate].
    intros [= <-] _. cbn [map fst]. split.
    + repeat constructor.
    + intros k'. cbn [In]. intuition congruence.
  - destruct (key_compare k k1) eqn:E.
    + apply key_compare_eq in E. subst k1.
      destruct (observe a v); cbn [mbind res_bind]; [|discriminate].
      intros [= <-] Hs. cbn [map fst] in *. split; [exact Hs|].
      intros k'. cbn [In]. intuition congruence.
    + destruct (observe None v); cbn [mbind res_bind]; [|discriminate].
      intros [= <-] Hs. cbn [map fst] in *. split.
      * constructor; [exact Hs|]. constructor; [exact E|].
        apply StronglySorted_inv in Hs as [_ Hall].
        eapply List.Forall_impl; [|exact Hall].
        intros k2 H2. exact (key_lt_trans k k1 k2 E H2).
      * intros k'. cbn [In]. intuition congruence.
    + destruct (upsert k v gs) as [gs1|e] eqn:Hup; cbn [mbind res_bind];
        [|discriminate].
      intros [= <-] Hs. cbn [map fst] in *.
      apply StronglySorted_inv in Hs as [Hs Hall].
      destruct (IH gs1 eq_refl Hs) as [Hs1 Hin1]. split.
      * constructor; [exact Hs1|]. apply List.Forall_forall.
        intros k2 [->|H2]%Hin1.
        -- unfold key_lt. rewrite key_compare_antisym, E. reflexivity.
        -- rewrite List.Forall_forall in Hall. exact (Hall k2 H2).
      * intros k'. cbn [In]. rewrite Hin1. intuition congruence.
Qed.

Lemma group_rows_keys (kvs : list (list pyval * pyval)) (gs gs' : groups) :
  group_rows kvs gs = Ok gs' ->
  StronglySorted key_lt (map fst gs) ->
  StronglySorted key_lt (map fst gs')
  /\ forall k, In k (map fst gs')
               <-> In k (map fst gs)
                   \/ (existsb is_null k = false /\ In k (map fst kvs)).
Proof.
  revert gs gs'. induction kvs as [|[k v] kvs IH]; intros gs gs';
    cbn [group_rows].
  - intros [= <-] Hs. split; [exact Hs|]. intros k. cbn [map In]. tauto.
  - destruct (existsb is_null k) eqn:Enull.
    + intros Hrun Hs. destruct (IH gs gs' Hrun Hs) as [Hs' Hin].
      split; [exact Hs'|]. intros k'. rewrite Hin. cbn [map fst In].
      split; [tauto|]. intros [H|[Hn [<-|H]]]; auto; congruence.
    + destruct (upsert k v gs) as [gs1|e] eqn:Hup; cbn [mbind res_bind];
        [|discriminate].
      intros Hrun Hs. destruct (upsert_keys k v gs gs1 Hup Hs) as [Hs1 Hin1].
      destruct (IH gs1 gs' Hrun Hs1) as [Hs' Hin].
      split; [exact Hs'|]. intros k'. rewrite Hin, Hin1. cbn [map fst In].
      split.
      * intros [[->|H]|[Hn H]]; auto.
      * intros [H|[Hn [<-|H]]]; auto.
Qed.

Section GroupbyKeys.

(** The two dimension labels, as for the sums. *)
Variables a b : string.
Hypothesis b_not_a : String.eqb b a = false.
Hypothesis sales_not_a : String.eqb "sales" a = false.
Hypothesis sales_not_b : String.eqb "sales" b = false.

Lemma melted_keys (rws : list (list pyval)) :
  Forall melted_shape rws ->
  map fst (map (fun r => (map (cell [a; b; "month"; "sales"] r) [a; b],
                          cell [a; b; "month"; "sales"] r "sales")) rws)
  = map (firstn 2) rws.
Proof.
  intros Hrws. rewrite map_map. apply map_ext_in. intros row Hin.
  rewrite Forall_forall in Hrws. apply list_elem_of_In in Hin.
  destruct (Hrws row Hin) as (ka & kb & m & v & ->). cbn [fst map firstn].
  destruct (melted_cells a b b_not_a sales_not_a sales_not_b ka kb (VStr m) v)
    as (-> & -> & _).
  reflexivity.
Qed.

(** The rows of a grouped sum are in increasing key order, and their
    keys are the keys, free of missing values, of the melted rows. *)
Lemma groupby_melted_keys (rws : list (list pyval)) (out : DataFrame) :
  Forall melted_shape rws ->
  groupby_sum (mkDataFrame [a; b; "month"; "sales"] rws) [a; b] "sales"
  = Ok out ->
  StronglySorted key_lt (row_keys [a; b] out)
  /\ forall k, In k (row_keys [a; b] out)
               <-> existsb is_null k = false /\ In k (map (firstn 2) rws).
Proof.
  intros Hrws. unfold groupby_sum. cbn [columns rows].
  assert (Hcols : List.filter
                    (fun c => negb (has_col [a; b; "month"; "sales"] c))
                    [a; b] = []).
  { apply no_missing. unfold has_col. cbn [forallb].
    rewrite index_of_here, (index_of_next b a), index_of_here
      by assumption.
    reflexivity. }
  rewrite Hcols.
  assert (Hsales : has_col [a; b; "month"; "sales"] "sales" = true).
  { unfold has_col.
    rewrite (index_of_next "sales" a), (index_of_next "sales" b)
      by assumption.
    reflexivity. }
  rewrite Hsales.
  destruct (group_rows _ []) as [gs|e] eqn:Hrun; cbn [mbind res_bind];
    [|discriminate].
  intros [= <-].
  destruct (group_rows_keys _ [] gs Hrun (SSorted_nil _)) as [Hs Hin].
  rewrite (melted_keys rws Hrws) in Hin. cbn [map In] in Hin.
  assert (Hkeys : row_keys [a; b]
                    (mkDataFrame [a; b; "sales"]
                       (map (fun g => fst g ++ [default (VInt 0) (snd g)]) gs))
                  = map fst gs).
  { unfold row_keys. cbn [columns rows]. rewrite map_map.
    apply map_ext_in. intros [k acc] Hg. cbn [fst snd].
    assert (Hk : In k (map fst gs))
      by (apply in_map_iff; exists (k, acc); auto).
    apply Hin in Hk as [[]|[_ Hk]].
    apply in_map_iff in Hk as (row & <- & Hrow).
    rewrite Forall_forall in Hrws. apply list_elem_of_In in Hrow.
    destruct (Hrws row Hrow) as (ka & kb & m & v & ->).
    cbn [firstn app map].
    destruct (summed_cells a b b_not_a sales_not_a sales_not_b ka kb
                (default (VInt 0) acc)) as (-> & -> & _).
    reflexivity. }
  rewrite Hkeys. split; [exact Hs|].
  intros k. rewrite Hin. tauto.
Qed.

End GroupbyKeys.

Lemma sumZ_if {A} (c : bool) (f : A -> Z) (l : list A) :
  sumZ (fun x => if c then f x else 0) l = if c then sumZ f l else 0.
Proof. destruct c; [reflexivity|apply sumZ_zero]. Qed.

Lemma getitem_present (df : DataFrame) (c : string) :
  has_col (columns df) c = true ->
  getitem df c = Ok (map (fun r => cell (columns df) r c) (rows df)).
Proof. intros H. unfold getitem. rewrite H. reflexivity. Qed.

Lemma getitem_absent (df : DataFrame) (c : string) :
  has_col (columns df) c = false -> getitem df c = Raise (KeyError [c]).
Proof. intros H. unfold getitem. rewrite H. reflexivity. Qed.

Lemma melt_present (df : DataFrame) (id_vars value_vars : list string)
    (var_name value_name : string) :
  forallb (has_col (columns df)) (id_vars ++ value_vars) = true ->
  melt df id_vars value_vars var_name value_name
  = Ok (mkDataFrame (id_vars ++ [var_name; value_name])
          (flat_map
             (fun v =>
                map (fun r =>
                       map (cell (columns df) r) id_vars
                         ++ [VStr v; cell (columns df) r v])
                    (rows df))
             value_vars)).
Proof. intros H. unfold melt. rewrite (no_missing _ _ H). reflexivity. Qed.

Lemma melt_absent (df : DataFrame) (id_vars value_vars : list string)
    (var_name value_name : string) (c : string) :
  In c (id_vars ++ value_vars) -> has_col (columns df) c = false ->
  exists missing,
    melt df id_vars value_vars var_name value_name = Raise (KeyError missing)
    /\ missing <> []
    /\ Forall (fun c' => In c' (id_vars ++ value_vars)
                         /\ has_col (columns df) c' = false) missing.
Proof.
  intros Hin Hc. unfold melt.
  pose proof (missing_are_absent (columns df) (id_vars ++ value_vars)) as Hall.
  destruct (some_missing _ _ _ Hin Hc) as (m & ms & E).
  rewrite E in *. exists (m :: ms). repeat split; [discriminate|assumption].
Qed.

(** The masks of the views, row by row. *)
Lemma sales_mask (cols : list string) (rs : list (list pyval)) :
  zip_with andb
    (map (fun v => py_eq v (VInt 2023)) (map (fun r => cell cols r "Year") rs))
    (map (fun v => py_eq v (VStr "Sales"))
         (map (fun r => cell cols r "Account") rs))
  = map (sales_2023 cols) rs.
Proof. rewrite !map_map, zip_with_map2. reflexivity. Qed.

Lemma actuals_mask (cols : list string) (rs : list (list pyval)) :
  zip_with andb
    (map (fun v => py_eq v (VStr "Actuals"))
         (map (fun r => cell cols r "Scenario") rs))
    (map (fun v => py_ne v (VStr "Sales"))
         (map (fun r => cell cols r "Account") rs))
  = map (actuals_not_sales cols) rs.
Proof. rewrite !map_map, zip_with_map2. reflexivity. Qed.

Lemma sales_by_unit_try_melted (df : DataFrame) :
  forallb (has_col (columns df))
    (["Year"; "Account"] ++ unit_keys ++ all_months) = true ->
  sales_by_unit_try df
  = groupby_sum
      (mkDataFrame ["Scenario"; "business_unit"; "month"; "sales"]
         (flat_map
            (fun m =>
               map (fun r => [cell (columns df) r "Scenario";
                              cell (columns df) r "business_unit";
                              VStr m; cell (columns df) r m])
                   (List.filter (sales_2023 (columns df)) (rows df)))
            all_months))
      unit_keys "sales".
Proof.
  intros Hcols.
  change (["Year"; "Account"] ++ unit_keys ++ all_months)
    with ("Year" :: "Account" :: unit_keys ++ all_months) in Hcols.
  cbn [forallb] in Hcols.
  apply andb_prop in Hcols as [Hy Hcols].
  apply andb_prop in Hcols as [Ha Hcols].
  unfold sales_by_unit_try.
  rewrite (getitem_present df "Year" Hy). cbn [mbind res_bind].
  rewrite (getitem_present df "Account" Ha). cbn [mbind res_bind].
  rewrite sales_mask, boolean_index_map.
  rewrite melt_present by exact Hcols. reflexivity.
Qed.

Lemma melted_rows_shape {A} (f g : A -> pyval) (h : A -> string -> pyval)
    (xs : list A) (months : list string) :
  Forall melted_shape
    (flat_map (fun m => map (fun x => [f x; g x; VStr m; h x m]) xs) months).
Proof.
  apply Forall_forall. intros row Hin%list_elem_of_In.
  apply in_flat_map in Hin as (m & _ & Hin).
  apply in_map_iff in Hin as (x & <- & _). unfold melted_shape. eauto 8.
Qed.

Lemma melted_rows_keys {A} (f g : A -> pyval) (h : A -> string -> pyval)
    (xs : list A) (months : list string) (k : list pyval) :
  In k (map (firstn 2)
          (flat_map (fun m => map (fun x => [f x; g x; VStr m; h x m]) xs)
                    months))
  <-> months <> [] /\ exists x, In x xs /\ k = [f x; g x].
Proof.
  rewrite in_map_iff. split.
  - intros (row & <- & Hin).
    apply in_flat_map in Hin as (m & Hm & Hin).
    apply in_map_iff in Hin as (x & <- & Hx).
    split; [intros ->; destruct Hm|]. exists x. auto.
  - intros (Hne & x & Hx & ->).
    destruct months as [|m months]; [congruence|].
    exists [f x; g x; VStr m; h x m]. split; [reflexivity|].
    apply in_flat_map. exists m. split; [left; reflexivity|].
    apply in_map_iff. eauto.
Qed.

Lemma keyed_pair (cols : list string) (c1 c2 : string) (r : list pyval) :
  existsb is_null [cell cols r c1; cell cols r c2] = false
  <-> keyed cols [c1; c2] r = true.
Proof.
  unfold keyed. cbn [existsb forallb].
  destruct (is_null (cell cols r c1)), (is_null (cell cols r c2));
    cbn; intuition congruence.
Qed.

(** ** The sales-by-unit view *)

Lemma months_weight_melted {A} (f g : A -> pyval) (h : A -> string -> pyval)
    (xs : list A) (months : list string) :
  melted_weight
    (flat_map (fun m => map (fun x => [f x; g x; VStr m; h x m]) xs) months)
  = sumZ (fun x => sumZ (fun m => Z.abs (as_int (h x m))) months) xs.
Proof.
  unfold melted_weight. rewrite sumZ_flat_map.
  erewrite sumZ_ext; [|intros m _; rewrite sumZ_map; reflexivity].
  cbn beta iota.
  rewrite <- (sumZ_swap (fun x m => Z.abs (as_int (h x m)))). reflexivity.
Qed.

Lemma row_share_melted {A} (sel : list pyval -> bool) (f g : A -> pyval)
    (h : A -> string -> pyval) (xs : list A) (months : list string) :
  sumZ (row_share sel)
    (flat_map (fun m => map (fun x => [f x; g x; VStr m; h x m]) xs) months)
  = sumZ (fun x =>
            if negb (is_null (f x)) && negb (is_null (g x)) && sel [f x; g x]
            then sumZ (fun m => as_int (h x m)) months else 0) xs.
Proof.
  rewrite sumZ_flat_map.
  erewrite sumZ_ext; [|intros m _; rewrite sumZ_map; reflexivity].
  rewrite <- (sumZ_swap
                (fun x m => row_share sel [f x; g x; VStr m; h x m])).
  apply sumZ_ext. intros x _. cbn [row_share].
  rewrite sumZ_if, negb_orb. reflexivity.
Qed.

(** When its columns are all there, no surviving month cell is a string
    or a number that is not an integer, and the absolute values of the
    surviving month cells add up within 64 bits, the view succeeds, and
    the rows it returns add up, over any selection of groups, to the
    month cells of the surviving records of those groups. *)
Lemma sales_by_unit_sums (df : DataFrame) :
  forallb (has_col (columns df))
    (["Year"; "Account"] ++ unit_keys ++ all_months) = true ->
  Forall (fun r => Forall (fun m => value_ok (fun _ => True)
                                      (cell (columns df) r m)) all_months)
    (List.filter (sales_2023 (columns df)) (rows df)) ->
  months_weight (columns df)
    (List.filter (sales_2023 (columns df)) (rows df)) <= max64 ->
  exists out,
    sales_by_unit_try df = Ok out
    /\ columns out = ["Scenario"; "business_unit"; "sales"]
    /\ Forall (summed_row (fun _ => True)) (rows out)
    /\ forall sel,
        sel_total sel unit_keys "sales" out
        = sumZ (fun r =>
                  if keyed (columns df) unit_keys r
                     && sel (map (cell (columns df) r) unit_keys)
                  then sumZ (fun m => as_int (cell (columns df) r m)) all_months
                  else 0)
               (List.filter (sales_2023 (columns df)) (rows df)).
Proof.
  intros Hcols Hnum Hbound.
  rewrite (sales_by_unit_try_melted df Hcols).
  set (rs := List.filter (sales_2023 (columns df)) (rows df)) in *.
  destruct (groupby_melted (fun _ => True) I (fun _ _ _ _ => I)
              "Scenario" "business_unit" eq_refl eq_refl eq_refl
              (flat_map
                 (fun v => map (fun r => [cell (columns df) r "Scenario";
                                          cell (columns df) r "business_unit";
                                          VStr v; cell (columns df) r v]) rs)
                 all_months))
    as (out & Hout & Hcolumns & Hrows & Hsum).
  { apply Forall_forall. intros row Hin%list_elem_of_In.
    apply in_flat_map in Hin as (m & Hm & Hin).
    apply in_map_iff in Hin as (r & <- & Hr).
    rewrite Forall_forall in Hnum.
    apply list_elem_of_In in Hr. specialize (Hnum r Hr).
    rewrite Forall_forall in Hnum.
    apply list_elem_of_In in Hm. specialize (Hnum m Hm).
    unfold melted_row. eauto 10. }
  { rewrite (months_weight_melted _ _ (fun r m => cell (columns df) r m)).
    exact Hbound. }
  exists out. split; [exact Hout|]. split; [exact Hcolumns|].
  split; [exact Hrows|].
  intros sel. unfold unit_keys at 1. rewrite (Hsum sel).
  rewrite (row_share_melted sel _ _ (fun r m => cell (columns df) r m)).
  apply sumZ_ext. intros r _. unfold keyed, unit_keys. cbn [forallb map].
  rewrite andb_true_r. reflexivity.
Qed.

(** ** The yearly-by-account view *)

Lemma all_months_nodup : List.NoDup all_months.
Proof.
  unfold all_months.
  repeat (constructor; [cbn [In]; intuition discriminate|]). constructor.
Qed.

Lemma present_months_nodup (cols : list string) :
  List.NoDup (present_months cols).
Proof. apply List.NoDup_filter, all_months_nodup. Qed.

Section Yearly.

Variable parse_number : string -> option reading.

Lemma abs_num_summable (v : pyval) : summable (abs_num parse_number v).
Proof.
  unfold abs_num. destruct (to_numeric_coerce parse_number v); exact I.
Qed.

Lemma magnitude_nonneg (v : pyval) : 0 <= magnitude parse_number v.
Proof.
  unfold magnitude. destruct (to_numeric_coerce parse_number v);
    auto using Z.abs_nonneg, Z.le_refl.
Qed.

(** Where a cell is read as an integer, or not at all, and the integer
    has its absolute value within 64 bits, the cell becomes that absolute
    value. *)
Lemma abs_num_exact (v : pyval) :
  integer_reading parse_number v = true ->
  magnitude parse_number v <= max64 ->
  value_ok (fun z => 0 <= z) (abs_num parse_number v)
  /\ as_int (abs_num parse_number v) = magnitude parse_number v.
Proof.
  unfold integer_reading, magnitude, abs_num.
  destruct (to_numeric_coerce parse_number v) as [z|s| |p];
    intros Hr Hb; try discriminate; cbn [value_ok as_int]; auto with zarith.
  rewrite wrap64_small by (rewrite Z.abs_idemp; exact Hb).
  split; [apply Z.abs_nonneg|reflexivity].
Qed.


Lemma mapM_abs (l : list pyval) :
  mapM py_abs (map (to_numeric_coerce parse_number) l)
  = Ok (map (abs_num parse_number) l).
Proof.
  induction l as [|v l IH]; [reflexivity|].
  cbn [map mapM]. change (mapM py_abs) with (@mapM res _ _ _ _ py_abs).
  rewrite IH. unfold abs_num.
  destruct v as [z|s| |p]; simpl; try reflexivity.
  destruct (parse_number s) as [[z|p]|]; reflexivity.
Qed.

Lemma index_of_lookup (c : string) (cols : list string) (i : nat) :
  index_of c cols = Some i -> cols !! i = Some c.
Proof.
  revert i. induction cols as [|c' cols IH]; intros i; simpl; [discriminate|].
  destruct (String.eqb c c') eqn:E.
  - apply String.eqb_eq in E. intros [= <-]. simpl. congruence.
  - destruct (index_of c cols) as [j|]; simpl; [|discriminate].
    intros [= <-]. simpl. auto.
Qed.

Lemma cell_abs_row (cols : list string) (col c : string) (r : list pyval) :
  cell cols (abs_row parse_number cols col r) c
  = if String.eqb c col then abs_num parse_number (cell cols r c)
    else cell cols r c.
Proof.
  unfold abs_row. destruct (String.eqb c col) eqn:E.
  - apply String.eqb_eq in E; subst c. unfold cell.
    destruct (index_of col cols) as [i|] eqn:Ei; [|reflexivity].
    destruct (decide (i < length r)%nat) as [Hlt|Hge].
    + rewrite list_lookup_insert_eq by exact Hlt. reflexivity.
    + rewrite list_insert_ge by lia.
      rewrite (lookup_ge_None_2 r i) by lia. reflexivity.
  - destruct (index_of col cols) as [i|] eqn:Ei; [|reflexivity].
    unfold cell. destruct (index_of c cols) as [j|] eqn:Ej; [|reflexivity].
    rewrite list_lookup_insert_ne; [reflexivity|].
    intros ->. apply index_of_lookup in Ei, Ej.
    rewrite Ei in Ej. injection Ej as ->.
    rewrite String.eqb_refl in E. discriminate.
Qed.

(** The loop passes over each month column once. *)
Lemma cell_abs_row_all (cols cs : list string) (c : string)
    (r : list pyval) :
  List.NoDup cs ->
  cell cols (abs_row_all parse_number cols cs r) c
  = if existsb (String.eqb c) cs then abs_num parse_number (cell cols r c)
    else cell cols r c.
Proof.
  unfold abs_row_all. intros Hnd. revert r.
  induction Hnd as [|c1 cs Hc1 Hnd IH]; intros r; [reflexivity|].
  cbn [fold_left existsb]. rewrite IH, !cell_abs_row.
  destruct (String.eqb c c1) eqn:E; cbn [orb]; [|reflexivity].
  apply String.eqb_eq in E. subst c1.
  destruct (existsb (String.eqb c) cs) eqn:Ex; [|reflexivity].
  apply existsb_exists in Ex as (c' & Hin & ->%String.eqb_eq).
  contradiction.
Qed.

Lemma abs_column_present (d : DataFrame) (col : string) :
  has_col (columns d) col = true ->
  abs_column parse_number d col
  = Ok (mkDataFrame (columns d)
          (map (abs_row parse_number (columns d) col) (rows d))).
Proof.
  intros H. unfold abs_column. rewrite (getitem_present d col H).
  cbn [mbind res_bind]. rewrite mapM_abs. cbn [mbind res_bind].
  unfold setitem, abs_row. unfold has_col in H.
  destruct (index_of col (columns d)) as [i|]; [|discriminate].
  rewrite map_map, zip_with_map_r. reflexivity.
Qed.

Lemma abs_columns_present (d : DataFrame) (cs : list string) :
  forallb (has_col (columns d)) cs = true ->
  abs_columns parse_number d cs
  = Ok (mkDataFrame (columns d)
          (map (abs_row_all parse_number (columns d) cs) (rows d))).
Proof.
  revert d. induction cs as [|c cs IH]; intros [cols rs] H.
  - cbn [abs_columns columns rows]. rewrite map_id. reflexivity.
  - cbn [forallb] in H. apply andb_prop in H as [Hc Hcs].
    cbn [abs_columns]. rewrite (abs_column_present _ c Hc).
    cbn [mbind res_bind columns rows] in *. rewrite IH by exact Hcs.
    cbn [columns rows]. rewrite map_map. reflexivity.
Qed.

End Yearly.


Lemma existsb_filter_false {A} (f p : A -> bool) (l : list A) :
  existsb f l = false -> existsb f (List.filter p l) = false.
Proof.
  induction l as [|x l IH]; simpl; [reflexivity|].
  intros [Hx Hl]%orb_false_elim. destruct (p x); simpl; [rewrite Hx|]; auto.
Qed.

Lemma existsb_eqb_in (c : string) (l : list string) :
  In c l -> existsb (String.eqb c) l = true.
Proof.
  intros H. apply existsb_exists. exists c. split; [assumption|].
  apply String.eqb_refl.
Qed.

Lemma forallb_filter_same {A} (p : A -> bool) (l : list A) :
  forallb p (List.filter p l) = true.
Proof.
  apply forallb_forall. intros x [_ H]%filter_In. exact H.
Qed.

Lemma flat_map_ext_in {A B} (f g : A -> list B) (l : list A) :
  (forall x, In x l -> f x = g x) -> flat_map f l = flat_map g l.
Proof.
  induction l as [|x l IH]; intros H; [reflexivity|].
  cbn [flat_map]. rewrite (H x (or_introl eq_refl)), IH; [reflexivity|].
  intros y Hy. apply H. right. exact Hy.
Qed.

Lemma yearly_account_try_melted (parse_number : string -> option reading)
    (df : DataFrame) :
  forallb (has_col (columns df)) ("Scenario" :: account_keys) = true ->
  yearly_account_try parse_number df
  = groupby_sum
      (mkDataFrame ["Account"; "Year"; "month"; "sales"]
         (flat_map
            (fun m =>
               map (fun r =>
                      [cell (columns df) r "Account";
                       cell (columns df) r "Year"; VStr m;
                       abs_num parse_number (cell (columns df) r m)])
                   (List.filter (actuals_not_sales (columns df)) (rows df)))
            (present_months (columns df))))
      account_keys "sales".
Proof.
  intros Hcols. cbn [forallb account_keys] in Hcols.
  apply andb_prop in Hcols as [Hs Hcols].
  apply andb_prop in Hcols as [Ha Hcols].
  apply andb_prop in Hcols as [Hy _].
  unfold yearly_account_try.
  rewrite (getitem_present df "Scenario" Hs). cbn [mbind res_bind].
  rewrite (getitem_present df "Account" Ha). cbn [mbind res_bind].
  rewrite actuals_mask, boolean_index_map. cbn [columns].
  fold (present_months (columns df)).
  assert (Hmonths : forallb (has_col (columns df))
                      (present_months (columns df)) = true)
    by apply forallb_filter_same.
  rewrite abs_columns_present by exact Hmonths.
  cbn [mbind res_bind columns rows].
  rewrite melt_present.
  2:{ cbn [columns app forallb]. rewrite Ha, Hy. exact Hmonths. }
  cbn [mbind res_bind columns rows app map]. f_equal. f_equal.
  apply flat_map_ext_in. intros m Hm. rewrite map_map.
  apply map_ext. intros r.
  rewrite !cell_abs_row_all by apply present_months_nodup.
  unfold present_months at 1 2.
  rewrite !(existsb_filter_false _ _ all_months) by reflexivity.
  rewrite (existsb_eqb_in m (present_months (columns df)) Hm).
  reflexivity.
Qed.

(** A month column the table lacks adds nothing, so the sum over the
    present months is the sum over the twelve. *)
Lemma present_months_total (f : pyval -> Z) (cols : list string)
    (r : list pyval) :
  f VNaN = 0 ->
  sumZ (fun m => f (cell cols r m)) (present_months cols)
  = sumZ (fun m => f (cell cols r m)) all_months.
Proof.
  intros Hf. unfold present_months. rewrite sumZ_filter.
  apply sumZ_ext. intros m _.
  destruct (has_col cols m) eqn:E; [reflexivity|].
  rewrite (cell_absent cols r m E), Hf. reflexivity.
Qed.

(** When the three columns it reads are there the view succeeds whatever
    the month cells hold. *)
Lemma yearly_account_succeeds (parse_number : string -> option reading)
    (df : DataFrame) :
  forallb (has_col (columns df)) ("Scenario" :: account_keys) = true ->
  exists out,
    yearly_account_try parse_number df = Ok out
    /\ columns out = ["Account"; "Year"; "sales"].
Proof.
  intros Hcols. rewrite (yearly_account_try_melted parse_number df Hcols).
  apply (groupby_total "Account" "Year" eq_refl eq_refl eq_refl).
  apply Forall_forall. intros row Hin%list_elem_of_In.
  apply in_flat_map in Hin as (m & Hm & Hin).
  apply in_map_iff in Hin as (r & <- & Hr).
  do 4 eexists. split; [reflexivity|]. apply abs_num_summable.
Qed.

(** A month cell of a record is bounded by the total of the records. *)
Lemma magnitude_le_total (parse_number : string -> option reading)
    (cols : list string) (rs : list (list pyval)) (r : list pyval)
    (m : string) :
  In r rs -> In m all_months ->
  magnitude parse_number (cell cols r m)
  <= magnitudes_total parse_number cols rs.
Proof.
  intros Hr Hm. unfold magnitudes_total.
  etransitivity;
    [|apply (sumZ_member
               (fun r => sumZ (fun m => magnitude parse_number (cell cols r m))
                              all_months) rs r); [|exact Hr]].
  - apply (sumZ_member (fun m => magnitude parse_number (cell cols r m))
             all_months m); [|exact Hm].
    intros m' _. apply magnitude_nonneg.
  - intros r' _. apply sumZ_nonneg. intros m' _. apply magnitude_nonneg.
Qed.

Lemma integer_readings_cell (parse_number : string -> option reading)
    (cols : list string) (rs : list (list pyval)) (r : list pyval)
    (m : string) :
  integer_readings parse_number cols rs = true ->
  In r rs -> In m all_months ->
  integer_reading parse_number (cell cols r m) = true.
Proof.
  unfold integer_readings. intros H Hr Hm.
  rewrite forallb_forall in H. specialize (H r Hr).
  rewrite forallb_forall in H. exact (H m Hm).
Qed.

Lemma present_months_in (cols : list string) (m : string) :
  In m (present_months cols) -> In m all_months.
Proof. unfold present_months. intros [H _]%filter_In. exact H. Qed.


(** When, moreover, no surviving month cell is read as a number that is
    not an integer and the magnitudes of the surviving month cells add up
    within 64 bits, the sums of the view are non-negative integers, and
    over any selection of groups they add up to the magnitudes of the
    month cells of the surviving records of those groups. *)
Lemma yearly_account_sums (parse_number : string -> option reading)
    (df : DataFrame) :
  forallb (has_col (columns df)) ("Scenario" :: account_keys) = true ->
  integer_readings parse_number (columns df)
    (List.filter (actuals_not_sales (columns df)) (rows df)) = true ->
  magnitudes_total parse_number (columns df)
    (List.filter (actuals_not_sales (columns df)) (rows df)) <= max64 ->
  exists out,
    yearly_account_try parse_number df = Ok out
    /\ columns out = ["Account"; "Year"; "sales"]
    /\ Forall (summed_row (fun z => 0 <= z)) (rows out)
    /\ forall sel,
        sel_total sel account_keys "sales" out
        = sumZ (fun r =>
                  if keyed (columns df) account_keys r
                     && sel (map (cell (columns df) r) account_keys)
                  then sumZ (fun m => magnitude parse_number
                                        (cell (columns df) r m))
                            (present_months (columns df))
                  else 0)
               (List.filter (actuals_not_sales (columns df)) (rows df)).
Proof.
  intros Hcols Hint Hbound.
  rewrite (yearly_account_try_melted parse_number df Hcols).
  set (rs := List.filter (actuals_not_sales (columns df)) (rows df)) in *.
  set (months := present_months (columns df)).
  assert (Hcell : forall r m, In r rs -> In m months ->
            value_ok (fun z => 0 <= z)
              (abs_num parse_number (cell (columns df) r m))
            /\ as_int (abs_num parse_number (cell (columns df) r m))
               = magnitude parse_number (cell (columns df) r m)).
  { intros r m Hr Hm%present_months_in. apply abs_num_exact.
    - exact (integer_readings_cell _ _ _ r m Hint Hr Hm).
    - etransitivity; [|exact Hbound]. apply magnitude_le_total; assumption. }
  destruct (groupby_melted (fun z => 0 <= z) (Z.le_refl 0)
              (fun x y Hx Hy => Z.add_nonneg_nonneg x y Hx Hy)
              "Account" "Year" eq_refl eq_refl eq_refl
              (flat_map
                 (fun v => map (fun r =>
                                  [cell (columns df) r "Account";
                                   cell (columns df) r "Year"; VStr v;
                                   abs_num parse_number
                                     (cell (columns df) r v)]) rs)
                 months))
    as (out & Hout & Hcolumns & Hrows & Hsum).
  { apply Forall_forall. intros row Hin%list_elem_of_In.
    apply in_flat_map in Hin as (m & Hm & Hin).
    apply in_map_iff in Hin as (r & <- & Hr).
    do 4 eexists. split; [reflexivity|]. apply Hcell; assumption. }
  { rewrite (months_weight_melted _ _
               (fun r m => abs_num parse_number (cell (columns df) r m))).
    etransitivity; [|exact Hbound]. unfold magnitudes_total.
    apply sumZ_le. intros r Hr.
    rewrite <- (present_months_total (magnitude parse_number))
      by reflexivity.
    apply sumZ_le. intros m Hm.
    destruct (Hcell r m Hr Hm) as [_ ->].
    rewrite Z.abs_eq by apply magnitude_nonneg. lia. }
  exists out. split; [exact Hout|]. split; [exact Hcolumns|].
  split; [exact Hrows|].
  intros sel. unfold account_keys at 1. rewrite (Hsum sel).
  rewrite (row_share_melted sel _ _
             (fun r m => abs_num parse_number (cell (columns df) r m))).
  apply sumZ_ext. intros r Hr. unfold keyed, account_keys. cbn [forallb map].
  rewrite andb_true_r.
  match goal with |- (if ?c then _ else _) = _ => destruct c end;
    [|reflexivity].
  apply sumZ_ext. intros m Hm. apply Hcell; assumption.
Qed.


(** ** Missing columns *)

Lemma melt_absent_labels (df : DataFrame) (id_vars value_vars : list string)
    (var_name value_name : string) (c : string) :
  In c (id_vars ++ value_vars) -> has_col (columns df) c = false ->
  exists missing,
    melt df id_vars value_vars var_name value_name = Raise (KeyError missing)
    /\ absent_labels (columns df) missing.
Proof.
  intros Hin Hc.
  destruct (melt_absent df id_vars value_vars var_name value_name c Hin Hc)
    as (missing & E & Hne & Hall).
  exists missing. split; [exact E|]. split; [exact Hne|].
  eapply Forall_impl; [exact Hall|]. intros c' [_ H]. exact H.
Qed.

Lemma absent_singleton (cols : list string) (c : string) :
  has_col cols c = false -> absent_labels cols [c].
Proof.
  intros H. split; [discriminate|]. constructor; [exact H|constructor].
Qed.

Lemma sales_by_unit_absent (df : DataFrame) (c : string) :
  In c (["Year"; "Account"] ++ unit_keys ++ all_months) ->
  has_col (columns df) c = false ->
  exists missing,
    sales_by_unit_try df = Raise (KeyError missing)
    /\ absent_labels (columns df) missing.
Proof.
  intros Hin Hc. unfold sales_by_unit_try.
  destruct (has_col (columns df) "Year") eqn:Hy.
  2:{ rewrite (getitem_absent df "Year" Hy).
      eexists; split; [reflexivity|]. apply absent_singleton, Hy. }
  rewrite (getitem_present df "Year" Hy). cbn [mbind res_bind].
  destruct (has_col (columns df) "Account") eqn:Ha.
  2:{ rewrite (getitem_absent df "Account" Ha).
      eexists; split; [reflexivity|]. apply absent_singleton, Ha. }
  rewrite (getitem_present df "Account" Ha). cbn [mbind res_bind].
  rewrite sales_mask, boolean_index_map.
  destruct Hin as [<-|[<-|Hin]]; try congruence.
  destruct (melt_absent_labels
              (mkDataFrame (columns df)
                 (List.filter (sales_2023 (columns df)) (rows df)))
              ["Scenario"; "business_unit"] all_months "month" "sales" c
              Hin Hc) as (missing & -> & Habs).
  exists missing. split; [reflexivity|exact Habs].
Qed.

Lemma monthly_sales_absent (df : DataFrame) (c : string) :
  In c (["Year"; "Account"; "business_unit"; "Scenario"] ++ all_months) ->
  has_col (columns df) c = false ->
  exists missing,
    monthly_sales_try df = Raise (KeyError missing)
    /\ absent_labels (columns df) missing.
Proof.
  intros Hin Hc. unfold monthly_sales_try.
  destruct (has_col (columns df) "Year") eqn:Hy.
  2:{ rewrite (getitem_absent df "Year" Hy).
      eexists; split; [reflexivity|]. apply absent_singleton, Hy. }
  rewrite (getitem_present df "Year" Hy). cbn [mbind res_bind].
  destruct (has_col (columns df) "Account") eqn:Ha.
  2:{ rewrite (getitem_absent df "Account" Ha).
      eexists; split; [reflexivity|]. apply absent_singleton, Ha. }
  rewrite (getitem_present df "Account" Ha). cbn [mbind res_bind].
  destruct (has_col (columns df) "business_unit") eqn:Hb.
  2:{ rewrite (getitem_absent df "business_unit" Hb).
      eexists; split; [reflexivity|]. apply absent_singleton, Hb. }
  rewrite (getitem_present df "business_unit" Hb). cbn [mbind res_bind].
  destruct Hin as [<-|[<-|[<-|Hin]]]; try congruence.
  unfold boolean_index.
  match goal with
  | |- context [melt ?d _ _ _ _] =>
      destruct (melt_absent_labels d ["Scenario"] all_months "month" "sales"
                  c Hin Hc) as (missing & -> & Habs)
  end.
  exists missing. split; [reflexivity|exact Habs].
Qed.

Lemma yearly_account_absent (parse_number : string -> option reading)
    (df : DataFrame) (c : string) :
  In c ("Scenario" :: account_keys) ->
  has_col (columns df) c = false ->
  exists missing,
    yearly_account_try parse_number df = Raise (KeyError missing)
    /\ absent_labels (columns df) missing.
Proof.
  intros Hin Hc. unfold yearly_account_try.
  destruct (has_col (columns df) "Scenario") eqn:Hs.
  2:{ rewrite (getitem_absent df "Scenario" Hs).
      eexists; split; [reflexivity|]. apply absent_singleton, Hs. }
  rewrite (getitem_present df "Scenario" Hs). cbn [mbind res_bind].
  destruct (has_col (columns df) "Account") eqn:Ha.
  2:{ rewrite (getitem_absent df "Account" Ha).
      eexists; split; [reflexivity|]. apply absent_singleton, Ha. }
  rewrite (getitem_present df "Account" Ha). cbn [mbind res_bind].
  rewrite actuals_mask, boolean_index_map. cbn [columns].
  rewrite abs_columns_present by apply forallb_filter_same.
  cbn [mbind res_bind columns rows].
  destruct Hin as [<-|Hin]; try congruence.
  match goal with
  | |- context [melt ?d ?ids ?vals _ _] =>
      destruct (melt_absent_labels d ids vals "month" "sales" c
                  (in_or_app _ _ _ (or_introl Hin)) Hc)
        as (missing & -> & Habs)
  end.
  exists missing. split; [reflexivity|exact Habs].
Qed.

(** * The properties of the specification *)

(** C1.  A table whose only record is Budget / 2023 / Sales / Software with
    Jan = 150000, Feb = 155000 and 0 in the ten other months gives, in the
    sales-by-unit view, exactly the row (Budget, Software, 305000), and
    nothing is reported. *)
Theorem sales_by_unit_single_record (df : DataFrame) (r : list pyval) :
  rows df = [r] ->
  cell (columns df) r "Scenario" = VStr "Budget" ->
  cell (columns df) r "Year" = VInt 2023 ->
  cell (columns df) r "Account" = VStr "Sales" ->
  cell (columns df) r "business_unit" = VStr "Software" ->
  cell (columns df) r "Jan" = VInt 150000 ->
  cell (columns df) r "Feb" = VInt 155000 ->
  Forall (fun m => cell (columns df) r m = VInt 0)
    ["Mar"; "Apr"; "May"; "Jun"; "Jul"; "Aug"; "Sep"; "Oct"; "Nov"; "Dec"] ->
  process_sales_data_by_unit df
  = (mkDataFrame ["Scenario"; "business_unit"; "sales"]
       [[VStr "Budget"; VStr "Software"; VInt 305000]], []).
Proof.
  set (cols := columns df).
  intros Hrows Hsc Hy Ha Hb Hjan Hfeb Hrest.
  repeat match goal with
         | H : Forall _ (_ :: _) |- _ =>
             apply Forall_cons_1 in H; destruct H as [? H]
         end.
  clear Hrest.
  assert (Hcols : forallb (has_col cols)
                    (["Year"; "Account"] ++ unit_keys ++ all_months) = true).
  { cbn [forallb app unit_keys all_months].
    repeat match goal with
           | H : cell cols r ?c = ?v |- context [has_col cols ?c] =>
               rewrite (cell_value_has_col cols r c v H ltac:(discriminate))
           end.
    reflexivity. }
  cbn [forallb app] in Hcols.
  apply andb_prop in Hcols as [Hcy Hcols].
  apply andb_prop in Hcols as [Hca Hcols].
  unfold process_sales_data_by_unit, sales_by_unit_try.
  rewrite (getitem_present _ "Year" Hcy). cbn [mbind res_bind].
  rewrite (getitem_present _ "Account" Hca). cbn [mbind res_bind].
  rewrite sales_mask, boolean_index_map, Hrows. fold cols.
  cbn [columns rows List.filter].
  unfold sales_2023 at 1. rewrite Hy, Ha.
  change (py_eq (VInt 2023) (VInt 2023) && py_eq (VStr "Sales") (VStr "Sales"))
    with true.
  cbv iota.
  rewrite melt_present by exact Hcols.
  cbn [mbind res_bind columns rows app map flat_map all_months].
  repeat match goal with
         | H : cell cols r ?c = _ |- _ => rewrite !H; clear H
         end.
  vm_compute. reflexivity.
Qed.

Lemma sales_by_unit_single_record_witness :
  process_sales_data_by_unit scenario_table
  = (mkDataFrame ["Scenario"; "business_unit"; "sales"]
       [[VStr "Budget"; VStr "Software"; VInt 305000]], []).
Proof.
  apply (sales_by_unit_single_record scenario_table
           [VStr "Budget"; VInt 2023; VStr "Sales"; VStr "Software";
            VInt 150000; VInt 155000; VInt 0; VInt 0; VInt 0; VInt 0;
            VInt 0; VInt 0; VInt 0; VInt 0; VInt 0; VInt 0]);
    try reflexivity.
  repeat constructor.
Defined.

Lemma months_int64_cells (df : DataFrame) (r : list pyval) (m : string) :
  months_int64 df = true -> In r (rows df) -> In m all_months ->
  exists z, cell (columns df) r m = VInt z.
Proof.
  unfold months_int64. intros H Hr Hm.
  rewrite forallb_forall in H. specialize (H r Hr).
  rewrite forallb_forall in H. specialize (H m Hm).
  destruct (cell (columns df) r m); try discriminate. eauto.
Qed.

Lemma column_total_sel (keys : list string) (col : string) (out : DataFrame) :
  column_total col out = sel_total (fun _ => true) keys col out.
Proof. reflexivity. Qed.

(** C2, as stated, fails, in two ways.  Sums are 64-bit sums: on a table
    with the columns of the data model and integer month cells, one
    record with 2^62 under Jan and under Feb gives the sales-by-unit view
    the sum -2^63, where the month cells add up to 2^63.  And a record
    without a value under a grouping key passes the filter but belongs to
    no group: its 305000 are in no sum. *)
Lemma sum_not_conserved :
  (raw_table overflow_table = true
   /\ months_numeric overflow_table = true
   /\ months_int64 overflow_table = true
   /\ process_sales_data_by_unit overflow_table
      = (mkDataFrame ["Scenario"; "business_unit"; "sales"]
           [[VStr "Budget"; VStr "Software"; VInt (-9223372036854775808)]],
         [])
   /\ column_total "sales" (fst (process_sales_data_by_unit overflow_table))
      = -9223372036854775808
   /\ months_total (columns overflow_table)
        (List.filter (sales_2023 (columns overflow_table))
                     (rows overflow_table))
      = 9223372036854775808)
  /\ (raw_table unkeyed_table = true
      /\ months_numeric unkeyed_table = true
      /\ months_int64 unkeyed_table = true
      /\ process_sales_data_by_unit unkeyed_table
         = (mkDataFrame ["Scenario"; "business_unit"; "sales"] [], [])
      /\ column_total "sales" (fst (process_sales_data_by_unit unkeyed_table))
         = 0
      /\ months_total (columns unkeyed_table)
           (List.filter (sales_2023 (columns unkeyed_table))
                        (rows unkeyed_table))
         = 305000).
Proof. repeat split; vm_compute; reflexivity. Qed.

(** C2, amended.  On a table of the data model whose month cells are all
    64-bit integers, each aggregating view for which every record passing
    its filter has a value under both of its grouping keys, and the
    absolute values of the month cells of these records add up to at most
    2^63 - 1, succeeds, and its [sales] values add up to the month cells
    of these records (to their absolute values, for the
    yearly-by-account view). *)
Theorem sum_conservation (parse_number : string -> option reading)
    (df : DataFrame) :
  raw_table df = true ->
  months_int64 df = true ->
  (forallb (keyed (columns df) unit_keys)
     (List.filter (sales_2023 (columns df)) (rows df)) = true ->
   months_weight (columns df)
     (List.filter (sales_2023 (columns df)) (rows df)) <= max64 ->
   exists out,
     process_sales_data_by_unit df = (out, [])
     /\ column_total "sales" out
        = sumZ (fun r => sumZ (fun m => as_int (cell (columns df) r m))
                           all_months)
               (List.filter (sales_2023 (columns df)) (rows df)))
  /\ (forallb (keyed (columns df) account_keys)
        (List.filter (actuals_not_sales (columns df)) (rows df)) = true ->
      months_weight (columns df)
        (List.filter (actuals_not_sales (columns df)) (rows df)) <= max64 ->
      exists out,
        process_yearly_account_data parse_number df = (out, [])
        /\ column_total "sales" out
           = sumZ (fun r =>
                     sumZ (fun m => Z.abs (as_int (cell (columns df) r m)))
                          all_months)
                  (List.filter (actuals_not_sales (columns df)) (rows df))).
Proof.
  intros Hcols Hnum. unfold raw_table in Hcols.
  cbn [forallb dimension_columns app] in Hcols.
  repeat match goal with
         | H : _ && _ = true |- _ => apply andb_prop in H as [? H]
         end.
  split; intros Hkeyed Hbound; rewrite forallb_forall in Hkeyed.
  - destruct (sales_by_unit_sums df) as (out & Hout & _ & _ & Hsum).
    { cbn [forallb app unit_keys].
      repeat match goal with
             | |- _ && _ = true => apply andb_true_intro; split
             end; auto. }
    { apply Forall_forall. intros r [Hr _]%list_elem_of_In%filter_In.
      apply Forall_forall. intros m Hm%list_elem_of_In.
      destruct (months_int64_cells df r m Hnum Hr Hm) as [z ->].
      exact I. }
    { exact Hbound. }
    exists out. unfold process_sales_data_by_unit. rewrite Hout.
    split; [reflexivity|].
    rewrite (column_total_sel unit_keys), Hsum.
    apply sumZ_ext. intros r Hr. rewrite (Hkeyed r Hr). reflexivity.
  - assert (Hmag : forall r m, In r (rows df) -> In m all_months ->
              integer_reading parse_number (cell (columns df) r m) = true
              /\ magnitude parse_number (cell (columns df) r m)
                 = Z.abs (as_int (cell (columns df) r m))).
    { intros r m Hr Hm.
      destruct (months_int64_cells df r m Hnum Hr Hm) as [z ->].
      split; reflexivity. }
    destruct (yearly_account_sums parse_number df)
      as (out & Hout & _ & _ & Hsum).
    { cbn [forallb account_keys].
      repeat match goal with
             | |- _ && _ = true => apply andb_true_intro; split
             end; auto. }
    { apply forallb_forall. intros r [Hr _]%filter_In.
      apply forallb_forall. intros m Hm. apply Hmag; assumption. }
    { etransitivity; [|exact Hbound]. apply Z.eq_le_incl.
      apply sumZ_ext. intros r [Hr _]%filter_In.
      apply sumZ_ext. intros m Hm. apply Hmag; assumption. }
    exists out. unfold process_yearly_account_data. rewrite Hout.
    split; [reflexivity|].
    rewrite (column_total_sel account_keys), Hsum.
    apply sumZ_ext. intros r Hr. rewrite (Hkeyed r Hr). cbn [andb].
    apply filter_In in Hr as [Hr _].
    rewrite (present_months_total (magnitude parse_number)) by reflexivity.
    apply sumZ_ext. intros m Hm. apply Hmag; assumption.
Qed.

Lemma sum_conservation_witness :
  raw_table ledger_table = true
  /\ months_int64 ledger_table = true
  /\ (exists out,
        process_sales_data_by_unit ledger_table = (out, [])
        /\ column_total "sales" out = 600007)
  /\ (exists out,
        process_yearly_account_data parse_int ledger_table = (out, [])
        /\ column_total "sales" out = 98302).
Proof.
  split; [reflexivity|]. split; [reflexivity|].
  destruct (sum_conservation parse_int ledger_table eq_refl eq_refl)
    as [H1 H2].
  destruct H1 as (o1 & H1 & T1); [reflexivity|vm_compute; discriminate|].
  destruct H2 as (o2 & H2 & T2); [reflexivity|vm_compute; discriminate|].
  split; [exists o1|exists o2]; (split; [assumption|]).
  - rewrite T1. reflexivity.
  - rewrite T2. reflexivity.
Defined.









(** ** Metrics *)

Lemma getitems_absent (df : DataFrame) (cs : list string) (c : string) :
  In c cs -> has_col (columns df) c = false ->
  exists missing,
    getitems df cs = Raise (KeyError missing)
    /\ absent_labels (columns df) missing.
Proof.
  intros Hin Hc. unfold getitems.
  pose proof (missing_are_absent (columns df) cs) as Hall.
  destruct (some_missing _ _ _ Hin Hc) as (m & ms & E).
  rewrite E in *. exists (m :: ms). split; [reflexivity|].
  split; [discriminate|].
  eapply Forall_impl; [exact Hall|]. intros c' [_ H]. exact H.
Qed.

Lemma calculate_metrics_absent (df : DataFrame) (c : string) :
  In c ("Account" :: all_months) ->
  has_col (columns df) c = false ->
  exists missing,
    calculate_metrics_try df = Raise (KeyError missing)
    /\ absent_labels (columns df) missing.
Proof.
  intros Hin Hc. unfold calculate_metrics_try.
  destruct (has_col (columns df) "Account") eqn:Ha.
  2:{ rewrite (getitem_absent df "Account" Ha).
      eexists; split; [reflexivity|]. apply absent_singleton, Ha. }
  rewrite (getitem_present df "Account" Ha). cbn [mbind res_bind].
  destruct Hin as [<-|Hin]; try congruence.
  destruct (getitems_absent
              (boolean_index df
                 (map (fun v => py_eq v (VStr "Sales"))
                      (map (fun r => cell (columns df) r "Account")
                           (rows df))))
              all_months c Hin Hc) as (missing & -> & Habs).
  exists missing. split; [reflexivity|exact Habs].
Qed.

Lemma calculate_metrics_try_ratios (df : DataFrame) (m : MetricsBundle) :
  calculate_metrics_try df = Ok m ->
  equity_ratio m = (7538 # 100)%Q
  /\ debt_equity m = (110 # 100)%Q
  /\ current_ratio m = (186 # 100)%Q.
Proof.
  unfold calculate_metrics_try.
  repeat match goal with
         | |- context [mbind _ ?x] =>
             destruct x; cbn [mbind res_bind]; try discriminate
         end.
  intros [= <-]. repeat split.
Qed.

(** C6.  When the table lacks a column [calculate_metrics] reads (Account
    or a month), the function returns the bundle whose five fields are
    0 and shows one [st.error] carrying the [KeyError], which names
    labels the table lacks; it returns normally. *)
Theorem calculate_metrics_missing_column (df : DataFrame) (c : string) :
  In c ("Account" :: all_months) ->
  has_col (columns df) c = false ->
  exists missing,
    calculate_metrics df
    = (mkMetrics (VInt 0) (VInt 0) 0%Q 0%Q 0%Q,
       [StError "Error calculating metrics" (KeyError missing)])
    /\ absent_labels (columns df) missing.
Proof.
  intros Hin Hc.
  destruct (calculate_metrics_absent df c Hin Hc) as (missing & E & Habs).
  exists missing. unfold calculate_metrics. rewrite E.
  split; [reflexivity|exact Habs].
Qed.

Lemma calculate_metrics_missing_column_witness :
  exists missing,
    calculate_metrics no_account_table
    = (mkMetrics (VInt 0) (VInt 0) 0%Q 0%Q 0%Q,
       [StError "Error calculating metrics" (KeyError missing)])
    /\ absent_labels (columns no_account_table) missing.
Proof.
  apply (calculate_metrics_missing_column no_account_table "Account").
  - left. reflexivity.
  - reflexivity.
Defined.

(** C9.  Whenever [calculate_metrics] succeeds on two tables, the two
    bundles agree on [equity_ratio], [debt_equity] and [current_ratio]:
    they are the literals 75.38, 1.10 and 1.86. *)
Theorem ratios_independent_of_table (df1 df2 : DataFrame)
    (m1 m2 : MetricsBundle) :
  calculate_metrics_try df1 = Ok m1 ->
  calculate_metrics_try df2 = Ok m2 ->
  fst (calculate_metrics df1) = m1
  /\ fst (calculate_metrics df2) = m2
  /\ equity_ratio m1 = equity_ratio m2
  /\ debt_equity m1 = debt_equity m2
  /\ current_ratio m1 = current_ratio m2
  /\ equity_ratio m1 = (7538 # 100)%Q
  /\ debt_equity m1 = (110 # 100)%Q
  /\ current_ratio m1 = (186 # 100)%Q.
Proof.
  intros H1 H2. unfold calculate_metrics. rewrite H1, H2.
  destruct (calculate_metrics_try_ratios df1 m1 H1) as (E1 & D1 & C1).
  destruct (calculate_metrics_try_ratios df2 m2 H2) as (E2 & D2 & C2).
  repeat split; congruence.
Qed.

Lemma ratios_independent_of_table_witness :
  equity_ratio (fst (calculate_metrics scenario_table))
  = equity_ratio (fst (calculate_metrics ledger_table))
  /\ accounts_receivable (fst (calculate_metrics scenario_table))
     <> accounts_receivable (fst (calculate_metrics ledger_table)).
Proof.
  destruct (ratios_independent_of_table scenario_table ledger_table
              (mkMetrics (VInt 305000) (VInt 0)
                 (7538 # 100) (110 # 100) (186 # 100))
              (mkMetrics (VInt 600007) (VInt 1698)
                 (7538 # 100) (110 # 100) (186 # 100))
              eq_refl eq_refl) as (-> & -> & E & _).
  split; [exact E|]. discriminate.
Defined.

(** C8, as stated, fails.  Nothing checks the table between loading and
    the computations: on an uploaded table without the Account column the
    run shows the data preview, then the metrics and each of the three
    views are computed against the table, each reporting its own
    [KeyError]; no validation error comes first and nothing is held
    back. *)
Lemma no_validation_before_views :
  has_col (columns no_account_table) "Account" = false
  /\ fst (script parse_int idle_world 0 None EmptyString
            (Some (inr no_account_table)) false ∅)
     = [StWarning "Using CSV fallback data."; StInfo "Data Source";
        StDataframe no_account_table;
        StError "Error calculating metrics" (KeyError ["Account"]);
        StPlotlyChart
          (Indicator "Total Accounts Receivable" (Whole (VInt 0)));
        StPlotlyChart (Gauge "Current Ratio" (Ratio 0) 3);
        StPlotlyChart (Indicator "Total Accounts Payable" (Whole (VInt 0)));
        StPlotlyChart (Gauge "In Stock" (Whole (VInt 10)) 31);
        StPlotlyChart (Indicator "Equity Ratio" (Ratio 0));
        StPlotlyChart (Gauge "Out Stock" (Whole (VInt 7)) 31);
        StPlotlyChart (Indicator "Debt Equity" (Ratio 0));
        StPlotlyChart (Gauge "Delay" (Whole (VInt 28)) 31);
        StError "Error processing sales data by unit" (KeyError ["Account"]);
        StWarning "No data available for sales by business unit";
        StError "Error processing monthly sales data" (KeyError ["Account"]);
        StWarning "No data available for monthly sales trend";
        StError "Error processing yearly account data" (KeyError ["Account"]);
        StWarning "No data available for yearly account sales"].
Proof. split; vm_compute; reflexivity. Qed.

(** C8, amended.  There is no validation step: on every table the run
    shows the preview and computes the metrics, and then draws the eight
    indicators and gauges and the three views, unless one of the two money
    indicators raises on a negative value and ends the run there.  When
    the table lacks a column, each computation that reads it catches the
    [KeyError], which names labels the table lacks, reports it with
    [st.error] and yields the bundle of zeros or the empty table (drawn
    as a warning). *)
Theorem missing_column_degrades_each_computation
    (parse_number : string -> option reading) (df : DataFrame) (c : string) :
  has_col (columns df) c = false ->
  dashboard parse_number df
  = (if negative (Whole (accounts_receivable (fst (calculate_metrics df))))
     then ([StDataframe df] ++ snd (calculate_metrics df), Some ValueError)
     else if negative (Whole (accounts_payable (fst (calculate_metrics df))))
     then ([StDataframe df] ++ snd (calculate_metrics df)
           ++ firstn 2 (indicators (fst (calculate_metrics df))),
           Some ValueError)
     else ([StDataframe df] ++ snd (calculate_metrics df)
           ++ indicators (fst (calculate_metrics df))
           ++ plot_top_right df ++ plot_bottom_left df
           ++ plot_bottom_right parse_number df, None))
  /\ (In c ("Account" :: all_months) ->
      exists missing,
        calculate_metrics df
        = (zero_metrics,
           [StError "Error calculating metrics" (KeyError missing)])
        /\ absent_labels (columns df) missing)
  /\ (In c (["Year"; "Account"] ++ unit_keys ++ all_months) ->
      exists missing,
        plot_top_right df
        = [StError "Error processing sales data by unit" (KeyError missing);
           StWarning "No data available for sales by business unit"]
        /\ absent_labels (columns df) missing)
  /\ (In c (["Year"; "Account"; "business_unit"; "Scenario"] ++ all_months) ->
      exists missing,
        plot_bottom_left df
        = [StError "Error processing monthly sales data" (KeyError missing);
           StWarning "No data available for monthly sales trend"]
        /\ absent_labels (columns df) missing)
  /\ (In c ("Scenario" :: account_keys) ->
      exists missing,
        plot_bottom_right parse_number df
        = [StError "Error processing yearly account data" (KeyError missing);
           StWarning "No data available for yearly account sales"]
        /\ absent_labels (columns df) missing).
Proof.
  intros Hc. split; [|split; [|split; [|split]]].
  - unfold dashboard. destruct (calculate_metrics df) as [metrics shown].
    cbn [fst snd]. unfold top_left_column, plot_metric. cbn [andb].
    destruct (negative (Whole (accounts_receivable metrics)));
      [cbn [app run_steps]; rewrite app_nil_r; reflexivity|].
    destruct (negative (Whole (accounts_payable metrics)));
      cbn [app run_steps plot_gauge indicators firstn];
      rewrite ?app_nil_r; reflexivity.
  - intros Hin.
    destruct (calculate_metrics_absent df c Hin Hc) as (missing & E & Habs).
    exists missing. unfold calculate_metrics. rewrite E. auto.
  - intros Hin.
    destruct (sales_by_unit_absent df c Hin Hc) as (missing & E & Habs).
    exists missing. unfold plot_top_right, process_sales_data_by_unit.
    rewrite E. auto.
  - intros Hin.
    destruct (monthly_sales_absent df c Hin Hc) as (missing & E & Habs).
    exists missing. unfold plot_bottom_left, process_monthly_sales_data.
    rewrite E. auto.
  - intros Hin.
    destruct (yearly_account_absent parse_number df c Hin Hc)
      as (missing & E & Habs).
    exists missing. unfold plot_bottom_right, process_yearly_account_data.
    rewrite E. auto.
Qed.

Lemma missing_column_degrades_each_computation_witness :
  (exists missing,
     calculate_metrics no_account_table
     = (zero_metrics,
        [StError "Error calculating metrics" (KeyError missing)])
     /\ absent_labels (columns no_account_table) missing)
  /\ (exists missing,
        plot_bottom_right parse_int no_account_table
        = [StError "Error processing yearly account data" (KeyError missing);
           StWarning "No data available for yearly account sales"]
        /\ absent_labels (columns no_account_table) missing).
Proof.
  destruct (missing_column_degrades_each_computation parse_int
              no_account_table "Account" eq_refl)
    as (_ & Hmetrics & _ & _ & Hyearly).
  split.
  - apply Hmetrics. left. reflexivity.
  - apply Hyearly. right. left. reflexivity.
Defined.

(** ** The cache *)

Lemma load_hit (w : World) (now : Z) (json url : string)
    (cache : gmap (string * string) CacheEntry) (entry : CacheEntry) :
  cache !! (json, url) = Some entry ->
  now - stored_at entry < ttl ->
  load_google_sheets_data w now json url cache
  = mkCall (stored entry) cache false.
Proof.
  intros Hlook Hfresh. unfold load_google_sheets_data. rewrite Hlook.
  destruct (Z.ltb_spec (now - stored_at entry) ttl); [reflexivity|lia].
Qed.

Lemma load_expired (w : World) (now : Z) (json url : string)
    (cache : gmap (string * string) CacheEntry) (entry : CacheEntry) :
  cache !! (json, url) = Some entry ->
  ttl <= now - stored_at entry ->
  load_google_sheets_data w now json url cache
  = mkCall (load_google_sheets_data_uncached w json url)
      (<[(json, url) :=
           mkEntry (load_google_sheets_data_uncached w json url) now]> cache)
      true.
Proof.
  intros Hlook Hold. unfold load_google_sheets_data. rewrite Hlook.
  destruct (Z.ltb_spec (now - stored_at entry) ttl); [lia|reflexivity].
Qed.

Lemma load_absent (w : World) (now : Z) (json url : string)
    (cache : gmap (string * string) CacheEntry) :
  cache !! (json, url) = None ->
  load_google_sheets_data w now json url cache
  = mkCall (load_google_sheets_data_uncached w json url)
      (<[(json, url) :=
           mkEntry (load_google_sheets_data_uncached w json url) now]> cache)
      true.
Proof.
  intros Hlook. unfold load_google_sheets_data. rewrite Hlook. reflexivity.
Qed.

(** After any call the cache holds what the call returned, stored at a
    time less than the TTL ago. *)
Lemma load_stores (w : World) (now : Z) (json url : string)
    (cache : gmap (string * string) CacheEntry) :
  exists ts,
    cache_after (load_google_sheets_data w now json url cache) !! (json, url)
    = Some (mkEntry
              (returned (load_google_sheets_data w now json url cache)) ts)
    /\ now - ts < ttl.
Proof.
  destruct (cache !! (json, url)) as [[r ts]|] eqn:Hlook.
  - destruct (Z.lt_ge_cases (now - ts) ttl) as [Hfresh|Hold].
    + rewrite (load_hit w now json url cache _ Hlook Hfresh).
      exists ts. cbn [cache_after returned stored]. auto.
    + rewrite (load_expired w now json url cache _ Hlook Hold).
      exists now. cbn [cache_after returned]. rewrite lookup_insert_eq.
      split; [reflexivity|]. unfold ttl. lia.
  - rewrite (load_absent w now json url cache Hlook).
    exists now. cbn [cache_after returned]. rewrite lookup_insert_eq.
    split; [reflexivity|]. unfold ttl. lia.
Qed.

(** C5.  After a call, a second call with the same credentials and URL
    made less than 300 s after the result was stored returns that same
    result without running the loader, whatever the sheet holds by then;
    a call made 300 s or more after it runs the loader again and stores
    what it gets. *)
Theorem cache_ttl (w1 w2 : World) (t1 t2 : Z) (json url : string)
    (cache : gmap (string * string) CacheEntry) :
  exists ts,
    stored_at
      <$> cache_after (load_google_sheets_data w1 t1 json url cache)
          !! (json, url)
    = Some ts
    /\ t1 - ts < ttl
    /\ (t2 - ts < ttl ->
        load_google_sheets_data w2 t2 json url
          (cache_after (load_google_sheets_data w1 t1 json url cache))
        = mkCall (returned (load_google_sheets_data w1 t1 json url cache))
            (cache_after (load_google_sheets_data w1 t1 json url cache))
            false)
    /\ (ttl <= t2 - ts ->
        load_google_sheets_data w2 t2 json url
          (cache_after (load_google_sheets_data w1 t1 json url cache))
        = mkCall (load_google_sheets_data_uncached w2 json url)
            (<[(json, url) :=
                 mkEntry (load_google_sheets_data_uncached w2 json url) t2]>
               (cache_after (load_google_sheets_data w1 t1 json url cache)))
            true).
Proof.
  destruct (load_stores w1 t1 json url cache) as (ts & Hlook & Hfresh).
  exists ts. rewrite Hlook. split; [reflexivity|]. split; [exact Hfresh|].
  split; intros Ht2.
  - rewrite (load_hit w2 t2 json url _ _ Hlook Ht2). reflexivity.
  - rewrite (load_expired w2 t2 json url _ _ Hlook Ht2). reflexivity.
Qed.

Lemma first_load :
  load_google_sheets_data sample_world 0 "{}" sheet_url ∅
  = mkCall (Some scenario_table, None)
      (<[("{}", sheet_url) := mkEntry (Some scenario_table, None) 0]> ∅)
      true.
Proof. rewrite load_absent by apply lookup_empty. reflexivity. Qed.

Lemma cache_ttl_witness :
  load_google_sheets_data changed_world 299 "{}" sheet_url
    (cache_after (load_google_sheets_data sample_world 0 "{}" sheet_url ∅))
  = mkCall (Some scenario_table, None)
      (cache_after (load_google_sheets_data sample_world 0 "{}" sheet_url ∅))
      false
  /\ returned
       (load_google_sheets_data changed_world 300 "{}" sheet_url
          (cache_after
             (load_google_sheets_data sample_world 0 "{}" sheet_url ∅)))
     = (Some ledger_table, None).
Proof.
  split.
  - destruct (cache_ttl sample_world changed_world 0 299 "{}" sheet_url ∅)
      as (ts & Hts & _ & Hhit & _).
    rewrite first_load in *. cbn [cache_after returned] in *.
    rewrite lookup_insert_eq in Hts. injection Hts as <-.
    apply Hhit. reflexivity.
  - destruct (cache_ttl sample_world changed_world 0 300 "{}" sheet_url ∅)
      as (ts & Hts & _ & _ & Hmiss).
    rewrite first_load in *. cbn [cache_after returned] in *.
    rewrite lookup_insert_eq in Hts. injection Hts as <-.
    rewrite Hmiss by (unfold ttl; lia). reflexivity.
Defined.

(** C4, as stated, fails.  The loader turns every failure into a returned
    pair, and the cache stores whatever is returned.  A table is stored at
    time 0; at time 300 the entry has expired and the sheet cannot be
    reached: the failure replaces the entry, and at time 301, with the
    sheet reachable again, the call returns the stored failure without
    running the loader. *)
Lemma failed_fetch_replaces_entry :
  let stored_table :=
    cache_after (load_google_sheets_data sample_world 0 "{}" sheet_url ∅) in
  let failed :=
    load_google_sheets_data down_world 300 "{}" sheet_url stored_table in
  stored_table !! ("{}", sheet_url)
  = Some (mkEntry (Some scenario_table, None) 0)
  /\ returned failed = (None, Some "APIError")
  /\ cache_after failed <> stored_table
  /\ cache_after failed !! ("{}", sheet_url)
     = Some (mkEntry (None, Some "APIError") 300)
  /\ load_google_sheets_data sample_world 301 "{}" sheet_url
       (cache_after failed)
     = mkCall (None, Some "APIError") (cache_after failed) false.
Proof.
  cbv zeta. rewrite first_load. cbn [cache_after].
  assert (Hlook : (<[("{}", sheet_url) :=
                       mkEntry (Some scenario_table, None) 0]>
                     (∅ : gmap (string * string) CacheEntry))
                  !! ("{}", sheet_url)
                  = Some (mkEntry (Some scenario_table, None) 0))
    by apply lookup_insert_eq.
  rewrite (load_expired down_world 300 "{}" sheet_url _ _ Hlook)
    by (cbn [stored_at]; unfold ttl; lia).
  cbn [cache_after returned].
  change (load_google_sheets_data_uncached down_world "{}" sheet_url)
    with (@None DataFrame, Some "APIError").
  split; [exact Hlook|]. split; [reflexivity|]. split; [|split].
  - intros Heq.
    assert (H : (<[("{}", sheet_url) := mkEntry (None, Some "APIError") 300]>
                   (<[("{}", sheet_url) :=
                        mkEntry (Some scenario_table, None) 0]>
                      (∅ : gmap (string * string) CacheEntry)))
                !! ("{}", sheet_url)
                = Some (mkEntry (Some scenario_table, None) 0))
      by (rewrite Heq; exact Hlook).
    rewrite lookup_insert_eq in H. discriminate H.
  - apply lookup_insert_eq.
  - apply (load_hit sample_world 301 "{}" sheet_url _
             (mkEntry (None, Some "APIError") 300)).
    + apply lookup_insert_eq.
    + cbn [stored_at]. unfold ttl. lia.
Qed.

(** C4, amended.  When the loader runs (no entry for the key, or an
    expired one) and fails, the call returns the failure and stores it as
    the entry of the key, replacing what was there; for the next 300 s
    calls with the same key return the stored failure without running the
    loader. *)
Theorem failed_fetch_is_stored (w w' : World) (now now' : Z)
    (json url msg : string) (cache : gmap (string * string) CacheEntry) :
  match cache !! (json, url) with
  | Some entry => ttl <= now - stored_at entry
  | None => True
  end ->
  load_google_sheets_data_uncached w json url = (None, Some msg) ->
  now' - now < ttl ->
  load_google_sheets_data w now json url cache
  = mkCall (None, Some msg)
      (<[(json, url) := mkEntry (None, Some msg) now]> cache) true
  /\ load_google_sheets_data w' now' json url
       (<[(json, url) := mkEntry (None, Some msg) now]> cache)
     = mkCall (None, Some msg)
         (<[(json, url) := mkEntry (None, Some msg) now]> cache) false.
Proof.
  intros Hmiss Hfail Hsoon. split.
  - destruct (cache !! (json, url)) as [entry|] eqn:Hlook.
    + rewrite (load_expired w now json url cache entry Hlook Hmiss), Hfail.
      reflexivity.
    + rewrite (load_absent w now json url cache Hlook), Hfail. reflexivity.
  - apply (load_hit w' now' json url _ (mkEntry (None, Some msg) now)).
    + apply lookup_insert_eq.
    + exact Hsoon.
Qed.

Lemma failed_fetch_is_stored_witness :
  load_google_sheets_data down_world 0 "{}" sheet_url ∅
  = mkCall (None, Some "APIError")
      (<[("{}", sheet_url) := mkEntry (None, Some "APIError") 0]> ∅) true
  /\ load_google_sheets_data sample_world 299 "{}" sheet_url
       (<[("{}", sheet_url) := mkEntry (None, Some "APIError") 0]> ∅)
     = mkCall (None, Some "APIError")
         (<[("{}", sheet_url) := mkEntry (None, Some "APIError") 0]> ∅) false.
Proof.
  apply (failed_fetch_is_stored down_world sample_world 0 299 "{}" sheet_url
           "APIError" ∅).
  - rewrite lookup_empty. exact I.
  - reflexivity.
  - reflexivity.
Defined.

(** * Further properties *)

(** ** Sums of series and frames *)

Lemma add_all_numbers (a : Z) (l : list pyval) :
  Forall (value_ok (fun _ => True)) l ->
  Z.abs a + sumZ (fun v => Z.abs (as_int v)) l <= max64 ->
  add_all (VInt a) l = Ok (VInt (a + sumZ as_int l)).
Proof.
  revert a. induction l as [|v l IH]; intros a Hl Hb;
    cbn [add_all sumZ fold_right] in *.
  - f_equal. f_equal. lia.
  - apply Forall_cons_1 in Hl as [Hv Hl].
    assert (0 <= sumZ (fun v => Z.abs (as_int v)) l)
      by (apply sumZ_nonneg; intros; apply Z.abs_nonneg).
    unfold sumZ in *.
    destruct v as [z|s| |]; cbn [value_ok] in Hv; try contradiction;
      cbn [fill0 is_null py_add mbind res_bind as_int] in *;
      rewrite wrap64_small by lia;
      rewrite IH by (try exact Hl; lia); f_equal; f_equal; lia.
Qed.

Lemma series_sum_numbers (l : list pyval) :
  Forall (value_ok (fun _ => True)) l ->
  sumZ (fun v => Z.abs (as_int v)) l <= max64 ->
  series_sum l = Ok (VInt (sumZ as_int l)).
Proof.
  destruct l as [|v l]; intros Hl Hb; [reflexivity|].
  apply Forall_cons_1 in Hl as [Hv Hl]. cbn [series_sum].
  cbn [sumZ fold_right] in Hb. unfold sumZ in *.
  destruct v as [z|s| |]; cbn [value_ok] in Hv; try contradiction;
    cbn [fill0 is_null as_int] in *;
    rewrite add_all_numbers by (try exact Hl; unfold sumZ; lia);
    reflexivity.
Qed.

Lemma mapM_ok {A B} (f : A -> res B) (g : A -> B) (l : list A) :
  (forall x, In x l -> f x = Ok (g x)) -> mapM f l = Ok (map g l).
Proof.
  induction l as [|x l IH]; intros H; [reflexivity|].
  cbn [mapM map]. rewrite (H x (or_introl eq_refl)). cbn [mbind res_bind].
  change (mapM f) with (@mapM res _ _ _ _ f).
  rewrite IH by (intros y Hy; apply H; right; exact Hy). reflexivity.
Qed.

Lemma index_of_in (c : string) (cols : list string) :
  In c cols -> exists i, index_of c cols = Some i.
Proof.
  induction cols as [|c' cols IH]; intros Hin; [destruct Hin|].
  cbn [index_of]. destruct (String.eqb c c') eqn:E; [eauto|].
  destruct Hin as [->|Hin]; [rewrite String.eqb_refl in E; discriminate|].
  destruct (IH Hin) as [i ->]. eauto.
Qed.

(** Reading a cell of [df[[c1, ..., cn]]] is reading the cell of [df]. *)
Lemma cell_getitems (cols cs : list string) (r : list pyval) (c : string) :
  In c cs -> cell cs (map (cell cols r) cs) c = cell cols r c.
Proof.
  intros Hin. unfold cell at 1.
  destruct (index_of_in c cs Hin) as [i Hi]. rewrite Hi.
  apply index_of_lookup in Hi. rewrite list_lookup_fmap, Hi. reflexivity.
Qed.

Lemma months_total_weight (cols : list string) (rs : list (list pyval)) :
  Z.abs (months_total cols rs) <= months_weight cols rs.
Proof.
  unfold months_total, months_weight.
  etransitivity; [apply sumZ_abs|]. apply sumZ_le. intros r _.
  apply sumZ_abs.
Qed.

(** The sum of all month cells of the records selected by [p], as
    [df[mask][all_months].sum().sum()] computes it. *)
Lemma months_sum (df : DataFrame) (p : list pyval -> bool) :
  forallb (has_col (columns df)) all_months = true ->
  Forall (fun r => Forall (fun m => value_ok (fun _ => True)
                                      (cell (columns df) r m)) all_months)
    (List.filter p (rows df)) ->
  months_weight (columns df) (List.filter p (rows df)) <= max64 ->
  (selected ← getitems (mkDataFrame (columns df) (List.filter p (rows df)))
                all_months;
   by_month ← frame_sum selected;
   series_sum by_month)
  = Ok (VInt (months_total (columns df) (List.filter p (rows df)))).
Proof.
  intros Hcols Hnum Hbound. unfold getitems. cbn [columns rows].
  rewrite (no_missing _ _ Hcols). cbn [mbind res_bind].
  unfold frame_sum. cbn [columns rows].
  set (rs := List.filter p (rows df)) in *.
  assert (Hswap : sumZ (fun c => sumZ (fun r => Z.abs (as_int
                                                  (cell (columns df) r c)))
                                      rs) all_months
                  = months_weight (columns df) rs).
  { unfold months_weight.
    rewrite (sumZ_swap (fun r m => Z.abs (as_int (cell (columns df) r m)))).
    reflexivity. }
  rewrite (mapM_ok _
             (fun c => VInt (sumZ (fun r => as_int (cell (columns df) r c))
                                  rs))).
  - cbn [mbind res_bind]. rewrite series_sum_numbers.
    + rewrite sumZ_map. cbn [as_int]. unfold months_total.
      rewrite (sumZ_swap (fun r m => as_int (cell (columns df) r m))).
      reflexivity.
    + apply Forall_map. apply Forall_forall. intros c _. exact I.
    + rewrite sumZ_map. cbn [as_int].
      etransitivity; [|exact Hbound]. rewrite <- Hswap.
      apply sumZ_le. intros c _. apply sumZ_abs.
  - intros c Hc. rewrite map_map.
    rewrite series_sum_numbers.
    + rewrite sumZ_map. f_equal. f_equal. apply sumZ_ext. intros r _.
      rewrite cell_getitems by exact Hc. reflexivity.
    + apply Forall_map. apply Forall_forall. intros r Hr%list_elem_of_In.
      cbn beta. rewrite cell_getitems by exact Hc.
      rewrite Forall_forall in Hnum. apply list_elem_of_In in Hr.
      specialize (Hnum r Hr). rewrite Forall_forall in Hnum.
      apply Hnum. apply list_elem_of_In. exact Hc.
    + rewrite sumZ_map.
      etransitivity; [|exact Hbound]. rewrite <- Hswap.
      etransitivity;
        [|apply (sumZ_member
                   (fun c => sumZ (fun r => Z.abs (as_int
                                                     (cell (columns df) r c)))
                                  rs) all_months c); [|exact Hc]].
      * apply Z.eq_le_incl. apply sumZ_ext. intros r _.
        rewrite cell_getitems by exact Hc. reflexivity.
      * intros c' _. apply sumZ_nonneg. intros r _. apply Z.abs_nonneg.
Qed.

(** X1.  When the Account column and the twelve month columns are there,
    every month cell of a Sales, Marketing or Operations record is an
    integer or missing, and the absolute values of the month cells of the
    Sales records, and of those of the Marketing and Operations records,
    add up to at most 2^53, [calculate_metrics] reports nothing:
    receivables are the absolute value of the sum of all month cells of
    the Sales records (of every year and scenario), payables that of the
    Marketing and Operations records, missing cells counting 0. *)
Theorem calculate_metrics_sums (df : DataFrame) :
  forallb (has_col (columns df)) ("Account" :: all_months) = true ->
  Forall (fun r => Forall (fun m => value_ok (fun _ => True)
                                      (cell (columns df) r m)) all_months)
    (List.filter (fun r => is_sales_account (columns df) r
                           || is_cost_account (columns df) r) (rows df)) ->
  months_weight (columns df)
    (List.filter (is_sales_account (columns df)) (rows df)) <= float_exact ->
  months_weight (columns df)
    (List.filter (is_cost_account (columns df)) (rows df)) <= float_exact ->
  calculate_metrics df
  = (mkMetrics
       (VInt (Z.abs (months_total (columns df)
                       (List.filter (is_sales_account (columns df))
                                    (rows df)))))
       (VInt (Z.abs (months_total (columns df)
                       (List.filter (is_cost_account (columns df))
                                    (rows df)))))
       (7538 # 100) (110 # 100) (186 # 100), []).
Proof.
  intros Hcols Hnum Hbs Hbc. cbn [forallb] in Hcols.
  apply andb_prop in Hcols as [Ha Hcols].
  pose proof float_exact_max64 as Hfe.
  assert (Hsel : forall p : list pyval -> bool,
             (forall r, p r = true ->
                        is_sales_account (columns df) r
                        || is_cost_account (columns df) r = true) ->
             Forall (fun r => Forall (fun m => value_ok (fun _ => True)
                                                 (cell (columns df) r m))
                                all_months)
               (List.filter p (rows df))).
  { intros p Hp. apply Forall_forall.
    intros r [Hr Hpr]%list_elem_of_In%filter_In.
    rewrite Forall_forall in Hnum. apply Hnum.
    apply list_elem_of_In, filter_In. split; [exact Hr|]. apply Hp, Hpr. }
  unfold calculate_metrics, calculate_metrics_try.
  rewrite (getitem_present df "Account" Ha). cbn [mbind res_bind].
  rewrite !map_map.
  change (fun x : list pyval =>
            py_eq (cell (columns df) x "Account") (VStr "Sales"))
    with (is_sales_account (columns df)).
  change (fun x : list pyval =>
            isin [VStr "Marketing"; VStr "Operations"]
                 (cell (columns df) x "Account"))
    with (is_cost_account (columns df)).
  rewrite (boolean_index_map df (is_sales_account (columns df))).
  pose proof (months_sum df (is_sales_account (columns df)) Hcols
                (Hsel _ (fun r H => orb_true_intro _ _ (or_introl H)))
                (Z.le_trans _ _ _ Hbs Hfe))
    as Hsales.
  pose proof (months_sum df (is_cost_account (columns df)) Hcols
                (Hsel _ (fun r H => orb_true_intro _ _ (or_intror H)))
                (Z.le_trans _ _ _ Hbc Hfe))
    as Hcosts.
  pose proof (months_total_weight (columns df)
                (List.filter (is_sales_account (columns df)) (rows df)))
    as Hws.
  pose proof (months_total_weight (columns df)
                (List.filter (is_cost_account (columns df)) (rows df)))
    as Hwc.
  cbn [mbind res_bind] in Hsales, Hcosts.
  destruct (getitems _ all_months) as [sales|e] in Hsales |- *;
    [|discriminate].
  cbn [mbind res_bind] in *.
  destruct (frame_sum sales) as [by_month|e]; [|discriminate].
  cbn [mbind res_bind] in *. rewrite Hsales. cbn [mbind res_bind].
  rewrite (boolean_index_map df (is_cost_account (columns df))).
  destruct (getitems _ all_months) as [costs|e] in Hcosts |- *;
    [|discriminate].
  cbn [mbind res_bind] in *.
  destruct (frame_sum costs) as [by_month'|e]; [|discriminate].
  cbn [mbind res_bind] in *. rewrite Hcosts.
  cbn [py_abs mbind res_bind].
  rewrite !wrap64_small by (rewrite Z.abs_idemp; lia).
  reflexivity.
Qed.

Lemma calculate_metrics_sums_witness :
  calculate_metrics ledger_table
  = (mkMetrics (VInt 600007) (VInt 1698) (7538 # 100) (110 # 100) (186 # 100),
     []).
Proof.
  rewrite (calculate_metrics_sums ledger_table eq_refl).
  - reflexivity.
  - vm_compute. repeat constructor.
  - vm_compute. discriminate.
  - vm_compute. discriminate.
Defined.

(** ** The groups of the two aggregating views *)

(** X3.  When the sales-by-unit view succeeds on a table that has its
    columns, its rows are in increasing order of (Scenario,
    business_unit), no two rows have the same pair, and the pairs are
    exactly those of the 2023 Sales records that have both values. *)
Theorem sales_by_unit_groups (df out : DataFrame) :
  forallb (has_col (columns df))
    (["Year"; "Account"] ++ unit_keys ++ all_months) = true ->
  sales_by_unit_try df = Ok out ->
  process_sales_data_by_unit df = (out, [])
  /\ StronglySorted key_lt (row_keys unit_keys out)
  /\ List.NoDup (row_keys unit_keys out)
  /\ forall k,
      In k (row_keys unit_keys out)
      <-> exists r, In r (rows df)
                    /\ sales_2023 (columns df) r = true
                    /\ keyed (columns df) unit_keys r = true
                    /\ k = map (cell (columns df) r) unit_keys.
Proof.
  intros Hcols Hout. unfold process_sales_data_by_unit. rewrite Hout.
  split; [reflexivity|].
  rewrite (sales_by_unit_try_melted df Hcols) in Hout.
  destruct (groupby_melted_keys "Scenario" "business_unit"
              eq_refl eq_refl eq_refl _ out
              (melted_rows_shape _ _ _ _ _) Hout) as [Hs Hin].
  split; [exact Hs|]. split; [exact (sorted_keys_nodup _ Hs)|].
  intros k. unfold unit_keys at 1. rewrite Hin, melted_rows_keys. split.
  - intros (Hnull & _ & r & [Hr Hp]%filter_In & ->).
    exists r. repeat split; auto. apply keyed_pair, Hnull.
  - intros (r & Hr & Hp & Hk & ->). cbn [unit_keys map]. split.
    + apply keyed_pair, Hk.
    + split; [discriminate|]. exists r. split; [|reflexivity].
      apply filter_In. auto.
Qed.

Lemma sales_by_unit_groups_witness :
  row_keys unit_keys (fst (process_sales_data_by_unit ledger_table))
  = [[VStr "Actuals"; VStr "Software"]; [VStr "Budget"; VStr "Software"]]
  /\ List.NoDup
       (row_keys unit_keys (fst (process_sales_data_by_unit ledger_table))).
Proof.
  destruct (sales_by_unit_groups ledger_table
              (mkDataFrame ["Scenario"; "business_unit"; "sales"]
                 [[VStr "Actuals"; VStr "Software"; VInt 295007];
                  [VStr "Budget"; VStr "Software"; VInt 305000]])
              eq_refl eq_refl) as (-> & _ & Hnodup & _).
  split; [reflexivity|exact Hnodup].
Defined.

(** X4.  When its columns are there, every month cell of a 2023 Sales
    record is an integer or missing, and the absolute values of these
    cells add up to at most 2^53, the sales-by-unit view succeeds, and
    the sum of every group is the sum of the month cells of the group's
    records, a missing cell counting 0. *)
Theorem sales_by_unit_group_sums (df : DataFrame) :
  forallb (has_col (columns df))
    (["Year"; "Account"] ++ unit_keys ++ all_months) = true ->
  Forall (fun r => Forall (fun m => value_ok (fun _ => True)
                                      (cell (columns df) r m)) all_months)
    (List.filter (sales_2023 (columns df)) (rows df)) ->
  months_weight (columns df)
    (List.filter (sales_2023 (columns df)) (rows df)) <= float_exact ->
  exists out,
    process_sales_data_by_unit df = (out, [])
    /\ forall key,
        sel_total (key_is key) unit_keys "sales" out
        = months_total (columns df)
            (List.filter
               (fun r => sales_2023 (columns df) r
                         && keyed (columns df) unit_keys r
                         && key_is key (map (cell (columns df) r) unit_keys))
               (rows df)).
Proof.
  intros Hcols Hnum Hbound.
  destruct (sales_by_unit_sums df Hcols Hnum
              (Z.le_trans _ _ _ Hbound float_exact_max64))
    as (out & Hout & _ & _ & Hsum).
  exists out. unfold process_sales_data_by_unit. rewrite Hout.
  split; [reflexivity|]. intros key. rewrite Hsum.
  unfold months_total. rewrite !sumZ_filter. apply sumZ_ext. intros r _.
  destruct (sales_2023 (columns df) r); cbn [andb]; [|reflexivity].
  destruct (keyed _ _ r && key_is key _); reflexivity.
Qed.

Lemma sales_by_unit_group_sums_witness :
  exists out,
    process_sales_data_by_unit ledger_table = (out, [])
    /\ sel_total (key_is [VStr "Actuals"; VStr "Software"]) unit_keys
         "sales" out = 295007.
Proof.
  destruct (sales_by_unit_group_sums ledger_table eq_refl)
    as (out & Hout & Hsum).
  - vm_compute. repeat constructor.
  - vm_compute. discriminate.
  - exists out. split; [exact Hout|]. rewrite Hsum. reflexivity.
Defined.

(** X5.  On a table that has the Scenario, Account and Year columns the
    yearly-by-account view has one row per (Account, Year) pair, in
    increasing order of the pairs; provided the table has a month
    column, the pairs are exactly those of the Actuals records whose
    account is not Sales and that have both values.  No row is for the
    Sales account. *)
Theorem yearly_account_groups (parse_number : string -> option reading)
    (df : DataFrame) :
  forallb (has_col (columns df)) ("Scenario" :: account_keys) = true ->
  exists out,
    process_yearly_account_data parse_number df = (out, [])
    /\ StronglySorted key_lt (row_keys account_keys out)
    /\ List.NoDup (row_keys account_keys out)
    /\ (forall k,
          In k (row_keys account_keys out)
          <-> present_months (columns df) <> []
              /\ exists r, In r (rows df)
                           /\ actuals_not_sales (columns df) r = true
                           /\ keyed (columns df) account_keys r = true
                           /\ k = map (cell (columns df) r) account_keys)
    /\ forall year, ~ In [VStr "Sales"; year] (row_keys account_keys out).
Proof.
  intros Hcols.
  destruct (yearly_account_succeeds parse_number df Hcols)
    as (out & Hout & _).
  exists out. unfold process_yearly_account_data. rewrite Hout.
  split; [reflexivity|].
  rewrite (yearly_account_try_melted parse_number df Hcols) in Hout.
  destruct (groupby_melted_keys "Account" "Year"
              eq_refl eq_refl eq_refl _ out
              (melted_rows_shape _ _
                 (fun r m => abs_num parse_number (cell (columns df) r m))
                 _ _) Hout)
    as [Hs Hin].
  split; [exact Hs|]. split; [exact (sorted_keys_nodup _ Hs)|].
  assert (Hkeys : forall k,
             In k (row_keys account_keys out)
             <-> present_months (columns df) <> []
                 /\ exists r, In r (rows df)
                              /\ actuals_not_sales (columns df) r = true
                              /\ keyed (columns df) account_keys r = true
                              /\ k = map (cell (columns df) r) account_keys).
  { intros k. unfold account_keys at 1.
    rewrite Hin,
      (melted_rows_keys _ _
         (fun r m => abs_num parse_number (cell (columns df) r m))).
    split.
    - intros (Hnull & Hne & r & [Hr Hp]%filter_In & ->).
      split; [exact Hne|]. exists r. repeat split; auto.
      apply keyed_pair, Hnull.
    - intros (Hne & r & Hr & Hp & Hk & ->). cbn [account_keys map]. split.
      + apply keyed_pair, Hk.
      + split; [exact Hne|]. exists r. split; [|reflexivity].
        apply filter_In. auto. }
  split; [exact Hkeys|].
  intros year (_ & r & _ & Hp & _ & Hk)%Hkeys.
  cbn [account_keys map] in Hk. injection Hk as Ha _.
  unfold actuals_not_sales, py_ne in Hp. rewrite <- Ha in Hp.
  cbn in Hp. rewrite andb_false_r in Hp. discriminate.
Qed.

Lemma yearly_account_groups_witness :
  exists out,
    process_yearly_account_data parse_int ledger_table = (out, [])
    /\ List.NoDup (row_keys account_keys out)
    /\ In [VStr "Operations"; VInt 2022] (row_keys account_keys out)
    /\ ~ In [VStr "Sales"; VInt 2023] (row_keys account_keys out).
Proof.
  destruct (yearly_account_groups parse_int ledger_table eq_refl)
    as (out & Hout & _ & Hnodup & Hin & Hsales).
  exists out. split; [exact Hout|]. split; [exact Hnodup|]. split.
  - apply Hin. split; [discriminate|].
    exists [VStr "Actuals"; VInt 2022; VStr "Operations"; VStr "Hardware";
            VInt (-100); VInt (-200); VInt 0; VInt 0; VInt 0; VInt 0;
            VInt 0; VInt 0; VInt 0; VInt 0; VInt 0; VInt 0].
    repeat split. cbn. auto.
  - apply Hsales.
Defined.

(** ** The monthly view *)

Lemma software_mask (cols : list string) (rs : list (list pyval)) :
  zip_with andb
    (zip_with andb
       (map (fun v => py_eq v (VInt 2023))
            (map (fun r => cell cols r "Year") rs))
       (map (fun v => py_eq v (VStr "Sales"))
            (map (fun r => cell cols r "Account") rs)))
    (map (fun v => py_eq v (VStr "Software"))
         (map (fun r => cell cols r "business_unit") rs))
  = map (software_sales cols) rs.
Proof.
  rewrite sales_mask, !map_map, zip_with_map2. reflexivity.
Qed.

(** X6.  When the Year, Account, business_unit, Scenario and twelve month
    columns are there the monthly view succeeds whatever the cells hold:
    it has twelve rows per 2023 Sales record of the Software unit, month
    by month in calendar order and record by record in table order, each
    with the record's scenario, the month and the month cell as it is. *)
Theorem monthly_view_rows (df : DataFrame) :
  forallb (has_col (columns df))
    (["Year"; "Account"; "business_unit"; "Scenario"] ++ all_months) = true ->
  process_monthly_sales_data df
  = (mkDataFrame ["Scenario"; "month"; "sales"]
       (flat_map
          (fun m =>
             map (fun r => [cell (columns df) r "Scenario"; VStr m;
                            cell (columns df) r m])
                 (List.filter (software_sales (columns df)) (rows df)))
          all_months), [])
  /\ length (rows (fst (process_monthly_sales_data df)))
     = (12 * length (List.filter (software_sales (columns df)) (rows df)))%nat.
Proof.
  intros Hcols.
  change (["Year"; "Account"; "business_unit"; "Scenario"] ++ all_months)
    with ("Year" :: "Account" :: "business_unit" :: ["Scenario"] ++ all_months)
    in Hcols.
  cbn [forallb] in Hcols.
  apply andb_prop in Hcols as [Hy Hcols].
  apply andb_prop in Hcols as [Ha Hcols].
  apply andb_prop in Hcols as [Hb Hcols].
  assert (E : process_monthly_sales_data df
              = (mkDataFrame ["Scenario"; "month"; "sales"]
                   (flat_map
                      (fun m =>
                         map (fun r => [cell (columns df) r "Scenario"; VStr m;
                                        cell (columns df) r m])
                             (List.filter (software_sales (columns df))
                                          (rows df)))
                      all_months), [])).
  { unfold process_monthly_sales_data, monthly_sales_try.
    rewrite (getitem_present df "Year" Hy). cbn [mbind res_bind].
    rewrite (getitem_present df "Account" Ha). cbn [mbind res_bind].
    rewrite (getitem_present df "business_unit" Hb). cbn [mbind res_bind].
    rewrite software_mask, boolean_index_map.
    rewrite melt_present by exact Hcols. reflexivity. }
  split; [exact E|]. rewrite E. cbn [fst rows all_months flat_map].
  rewrite !length_app, !length_map. cbn [length]. lia.
Qed.

Lemma monthly_view_rows_witness :
  length (rows (fst (process_monthly_sales_data unparseable_table))) = 12%nat
  /\ In [VStr "Budget"; VStr "Jan"; VStr "n/a"]
       (rows (fst (process_monthly_sales_data unparseable_table))).
Proof.
  destruct (monthly_view_rows unparseable_table eq_refl) as [E Hlen].
  split; [exact Hlen|]. rewrite E. left. reflexivity.
Defined.

Lemma software_key (cols : list string) (r : list pyval) (s : string) :
  py_eq (cell cols r "business_unit") (VStr "Software")
  && key_is [VStr s] [cell cols r "Scenario"]
  = keyed cols unit_keys r
    && key_is [VStr s; VStr "Software"] (map (cell cols r) unit_keys).
Proof.
  unfold keyed, key_is, unit_keys. cbn [forallb map].
  apply eq_true_iff_eq.
  rewrite !andb_true_iff, !bool_decide_eq_true, !negb_true_iff.
  destruct (cell cols r "business_unit") as [z|b| |];
    destruct (cell cols r "Scenario") as [z'|s'| |]; cbn [py_eq is_null];
    try (split; [intros [? ?]|intros [_ ?]]; congruence).
  rewrite String.eqb_eq. split.
  - intros [-> [= ->]]. auto.
  - intros [_ [= -> ->]]. auto.
Qed.

(** X7.  The monthly view and the sales-by-unit view agree: on a table
    with the columns of both, where every month cell of a 2023 Sales
    record is an integer or missing and the absolute values of these
    cells add up to at most 2^53, the [sales] values of the monthly rows
    of a scenario add up to the sum the sales-by-unit view gives for that
    scenario and the Software unit. *)
Theorem monthly_view_matches_unit_view (df : DataFrame) (s : string) :
  forallb (has_col (columns df))
    (["Year"; "Account"] ++ unit_keys ++ all_months) = true ->
  Forall (fun r => Forall (fun m => value_ok (fun _ => True)
                                      (cell (columns df) r m)) all_months)
    (List.filter (sales_2023 (columns df)) (rows df)) ->
  months_weight (columns df)
    (List.filter (sales_2023 (columns df)) (rows df)) <= float_exact ->
  exists out,
    process_sales_data_by_unit df = (out, [])
    /\ sel_total (key_is [VStr s]) ["Scenario"] "sales"
         (fst (process_monthly_sales_data df))
       = sel_total (key_is [VStr s; VStr "Software"]) unit_keys "sales" out.
Proof.
  intros Hcols Hnum Hbound.
  destruct (sales_by_unit_sums df Hcols Hnum
              (Z.le_trans _ _ _ Hbound float_exact_max64))
    as (out & Hout & _ & _ & Hsum).
  exists out. unfold process_sales_data_by_unit. rewrite Hout.
  split; [reflexivity|]. rewrite Hsum.
  destruct (monthly_view_rows df) as [E _].
  { change (["Year"; "Account"] ++ unit_keys ++ all_months)
      with ("Year" :: "Account" :: "Scenario" :: "business_unit" :: all_months)
      in Hcols.
    cbn [forallb app] in *.
    repeat match goal with
           | H : _ && _ = true |- _ => apply andb_prop in H as [? H]
           end.
    repeat match goal with
           | |- _ && _ = true => apply andb_true_intro; split
           end; assumption. }
  rewrite E. unfold sel_total. cbn [fst columns rows].
  rewrite sumZ_flat_map.
  erewrite sumZ_ext; [|intros m _; rewrite sumZ_map; reflexivity].
  rewrite <- (sumZ_swap
                (fun r m =>
                   if key_is [VStr s]
                        (map (cell ["Scenario"; "month"; "sales"]
                                [cell (columns df) r "Scenario"; VStr m;
                                 cell (columns df) r m]) ["Scenario"])
                   then as_int (cell ["Scenario"; "month"; "sales"]
                                  [cell (columns df) r "Scenario"; VStr m;
                                   cell (columns df) r m] "sales")
                   else 0)).
  unfold software_sales. rewrite !sumZ_filter. apply sumZ_ext. intros r _.
  destruct (sales_2023 (columns df) r); cbn [andb]; [|reflexivity].
  rewrite <- software_key.
  destruct (py_eq (cell (columns df) r "business_unit") (VStr "Software"));
    cbn [andb]; [|reflexivity].
  rewrite <- sumZ_if. apply sumZ_ext. intros m _. reflexivity.
Qed.

Lemma monthly_view_matches_unit_view_witness :
  sel_total (key_is [VStr "Actuals"]) ["Scenario"] "sales"
    (fst (process_monthly_sales_data ledger_table)) = 295007.
Proof.
  destruct (monthly_view_matches_unit_view ledger_table "Actuals" eq_refl)
    as (out & Hout & ->).
  - vm_compute. repeat constructor.
  - vm_compute. discriminate.
  - assert (E : out = fst (process_sales_data_by_unit ledger_table))
      by (rewrite Hout; reflexivity).
    rewrite E. reflexivity.
Defined.

(** ** Empty views *)

Lemma filter_none {A} (p : A -> bool) (l : list A) :
  (forall x, In x l -> p x = false) -> List.filter p l = [].
Proof.
  induction l as [|x l IH]; intros H; [reflexivity|].
  cbn [List.filter]. rewrite (H x (or_introl eq_refl)).
  apply IH. intros y Hy. apply H. right. exact Hy.
Qed.

Lemma flat_map_nil {A B} (f : A -> list B) (l : list A) :
  (forall x, f x = []) -> flat_map f l = [].
Proof.
  intros H. induction l as [|x l IH]; [reflexivity|].
  cbn [flat_map]. rewrite H, IH. reflexivity.
Qed.

(** X8.  On a table that has the columns of the views and no Sales
    record the sales-by-unit view and the monthly view are tables without
    rows, nothing is reported as an error, and each of the two charts is
    replaced by its no-data warning. *)
Theorem no_sales_records_empty_views (df : DataFrame) :
  forallb (has_col (columns df))
    (["Year"; "Account"] ++ unit_keys ++ all_months) = true ->
  (forall r, In r (rows df) ->
             py_eq (cell (columns df) r "Account") (VStr "Sales") = false) ->
  process_sales_data_by_unit df
  = (mkDataFrame ["Scenario"; "business_unit"; "sales"] [], [])
  /\ process_monthly_sales_data df
     = (mkDataFrame ["Scenario"; "month"; "sales"] [], [])
  /\ plot_top_right df
     = [StWarning "No data available for sales by business unit"]
  /\ plot_bottom_left df
     = [StWarning "No data available for monthly sales trend"].
Proof.
  intros Hcols Hnone.
  assert (Hsales : List.filter (sales_2023 (columns df)) (rows df) = []).
  { apply filter_none. intros r Hr. unfold sales_2023.
    rewrite (Hnone r Hr). apply andb_false_r. }
  assert (Hsoft : List.filter (software_sales (columns df)) (rows df) = []).
  { apply filter_none. intros r Hr. unfold software_sales, sales_2023.
    rewrite (Hnone r Hr), andb_false_r. reflexivity. }
  assert (E1 : process_sales_data_by_unit df
               = (mkDataFrame ["Scenario"; "business_unit"; "sales"] [], [])).
  { unfold process_sales_data_by_unit.
    rewrite (sales_by_unit_try_melted df Hcols), Hsales.
    rewrite flat_map_nil by reflexivity. reflexivity. }
  assert (E2 : process_monthly_sales_data df
               = (mkDataFrame ["Scenario"; "month"; "sales"] [], [])).
  { destruct (monthly_view_rows df) as [E _].
    - change (["Year"; "Account"] ++ unit_keys ++ all_months)
        with ("Year" :: "Account" :: "Scenario" :: "business_unit"
                :: all_months) in Hcols.
      cbn [forallb app] in *.
      repeat match goal with
             | H : _ && _ = true |- _ => apply andb_prop in H as [? H]
             end.
      repeat match goal with
             | |- _ && _ = true => apply andb_true_intro; split
             end; assumption.
    - rewrite E, Hsoft. rewrite flat_map_nil by reflexivity. reflexivity. }
  split; [exact E1|]. split; [exact E2|].
  unfold plot_top_right, plot_bottom_left. rewrite E1, E2.
  split; reflexivity.
Qed.

Lemma no_sales_records_empty_views_witness :
  length (rows costs_table) = 2%nat
  /\ process_sales_data_by_unit costs_table
     = (mkDataFrame ["Scenario"; "business_unit"; "sales"] [], [])
  /\ plot_top_right costs_table
     = [StWarning "No data available for sales by business unit"]
  /\ plot_bottom_left costs_table
     = [StWarning "No data available for monthly sales trend"].
Proof.
  split; [reflexivity|].
  destruct (no_sales_records_empty_views costs_table eq_refl)
    as (E1 & _ & E3 & E4).
  - intros r [<-|[<-|[]]]; reflexivity.
  - auto.
Defined.

(** ** The run and its cache *)

(** X10.  When credentials are uploaded and a URL is entered, the
    fallback CSV file plays no part in the run: also when the sheet
    cannot be loaded, the uploaded CSV is not used in its place. *)
Theorem csv_ignored_when_sheet_configured
    (parse_number : string -> option reading) (w : World) (now : Z)
    (json : string) (c : ascii) (url : string)
    (csv1 csv2 : option (string + DataFrame)) (refresh : bool)
    (cache : gmap (string * string) CacheEntry) :
  script parse_number w now (Some json) (String c url) csv1 refresh cache
  = script parse_number w now (Some json) (String c url) csv2 refresh cache.
Proof.
  unfold script. destruct csv1 as [[|]|], csv2 as [[|]|]; reflexivity.
Qed.

(** X11.  When the sheet cannot be loaded the run shows the error and the
    setup instructions and stops: no metric and no view is computed, and
    the refresh button is not reached, so the cache keeps what the call
    left in it. *)
Theorem failed_load_stops_run
    (parse_number : string -> option reading) (w : World) (now : Z)
    (json : string) (c : ascii) (url : string)
    (csv : option (string + DataFrame)) (refresh : bool)
    (cache : gmap (string * string) CacheEntry) (error : option string) :
  returned (load_google_sheets_data w now json (String c url) cache)
  = (None, error) ->
  script parse_number w now (Some json) (String c url) csv refresh cache
  = ([StFailure "Google Sheets Error" (default EmptyString error);
      StInfo "Please configure"],
     cache_after (load_google_sheets_data w now json (String c url) cache)).
Proof.
  intros H. unfold script.
  destruct csv as [[|]|]; rewrite H; reflexivity.
Qed.

Lemma failed_load_stops_run_witness :
  script parse_int down_world 0 (Some "{}") sheet_url
    (Some (inr scenario_table)) true ∅
  = ([StFailure "Google Sheets Error" "APIError"; StInfo "Please configure"],
     cache_after (load_google_sheets_data down_world 0 "{}" sheet_url ∅)).
Proof.
  apply (failed_load_stops_run parse_int down_world 0 "{}" "h"
           "ttps://docs.google.com/spreadsheets/d/abc123/edit"
           (Some (inr scenario_table)) true ∅ (Some "APIError")).
  reflexivity.
Defined.

(** X12.  A run in which a table was loaded, the charts were drawn to
    the end and the refresh button was pressed leaves the cache empty,
    and on an empty cache every call runs the loader, whatever the
    time. *)
Theorem refresh_forces_fetch
    (parse_number : string -> option reading) (w w' : World) (now now' : Z)
    (json json' : string) (c : ascii) (url url' : string)
    (csv : option (string + DataFrame))
    (cache : gmap (string * string) CacheEntry)
    (df : DataFrame) (error : option string) :
  returned (load_google_sheets_data w now json (String c url) cache)
  = (Some df, error) ->
  snd (dashboard parse_number df) = None ->
  snd (script parse_number w now (Some json) (String c url) csv true cache)
  = ∅
  /\ load_google_sheets_data w' now' json' url'
       (snd (script parse_number w now (Some json) (String c url) csv true
               cache))
     = mkCall (load_google_sheets_data_uncached w' json' url')
         (<[(json', url') :=
              mkEntry (load_google_sheets_data_uncached w' json' url') now']>
            ∅)
         true.
Proof.
  intros H Hrun.
  assert (E : snd (script parse_number w now (Some json) (String c url) csv
                     true cache) = ∅).
  { unfold script.
    destruct csv as [[|]|]; rewrite H;
      destruct (dashboard parse_number df) as [drawn [e|]];
      try discriminate; reflexivity. }
  split; [exact E|]. rewrite E. apply load_absent, lookup_empty.
Qed.

Lemma refresh_forces_fetch_witness :
  fetched
    (load_google_sheets_data sample_world 1 "{}" sheet_url
       (snd (script parse_int sample_world 0 (Some "{}") sheet_url None true
               ∅)))
  = true.
Proof.
  destruct (refresh_forces_fetch parse_int sample_world sample_world 0 1
              "{}" "{}" "h"
              "ttps://docs.google.com/spreadsheets/d/abc123/edit" sheet_url
              None ∅ scenario_table None) as [_ E].
  - change (String "h" "ttps://docs.google.com/spreadsheets/d/abc123/edit")
      with sheet_url.
    rewrite first_load. reflexivity.
  - reflexivity.
  - change (String "h" "ttps://docs.google.com/spreadsheets/d/abc123/edit")
      with sheet_url in E.
    rewrite E. reflexivity.
Defined.

(** X13.  A call touches no entry but that of its own credentials and
    URL, and touches that one only when it runs the loader. *)
Theorem cache_keys_independent (w : World) (now : Z)
    (json url json' url' : string)
    (cache : gmap (string * string) CacheEntry) :
  (json, url) <> (json', url') ->
  cache_after (load_google_sheets_data w now json url cache) !! (json', url')
  = cache !! (json', url')
  /\ (fetched (load_google_sheets_data w now json url cache) = false ->
      cache_after (load_google_sheets_data w now json url cache) = cache).
Proof.
  intros Hne. unfold load_google_sheets_data.
  destruct (cache !! (json, url)) as [entry|];
    [destruct (now - stored_at entry <? ttl)|];
    cbn [cache_after fetched];
    rewrite ?lookup_insert_ne by exact Hne;
    split; try reflexivity; discriminate.
Qed.

Lemma cache_keys_independent_witness :
  cache_after
    (load_google_sheets_data down_world 5 "{}" "https://example.org/d/x/"
       (cache_after (load_google_sheets_data sample_world 0 "{}" sheet_url ∅)))
  !! ("{}", sheet_url)
  = Some (mkEntry (Some scenario_table, None) 0).
Proof.
  destruct (cache_keys_independent down_world 5 "{}" "https://example.org/d/x/"
              "{}" sheet_url
              (cache_after
                 (load_google_sheets_data sample_world 0 "{}" sheet_url ∅)))
    as [-> _].
  - discriminate.
  - rewrite first_load. apply lookup_insert_eq.
Defined.

(** ** The sheet key of a URL *)

Lemma append_cons (c : ascii) (s t : string) :
  String.append (String c s) t = String c (String.append s t).
Proof. reflexivity. Qed.

Lemma append_empty_l (t : string) : String.append EmptyString t = t.
Proof. reflexivity. Qed.

Lemma append_assoc (s1 s2 s3 : string) :
  String.append (String.append s1 s2) s3
  = String.append s1 (String.append s2 s3).
Proof.
  induction s1 as [|c s1 IH]; [reflexivity|].
  rewrite !append_cons, IH. reflexivity.
Qed.

Lemma append_empty_r (s : string) : String.append s EmptyString = s.
Proof.
  induction s as [|c s IH]; [reflexivity|]. rewrite append_cons, IH.
  reflexivity.
Qed.

Lemma split_from_nonempty (sep : string) (skip : nat) (cur s : string) :
  (1 <= length (split_from sep skip cur s))%nat.
Proof.
  revert skip cur. induction s as [|c s IH]; intros skip cur;
    cbn [split_from length]; [lia|].
  destruct skip; [|apply IH].
  destruct (String.prefix sep (String c s)); [cbn [length]; lia|apply IH].
Qed.

Lemma prefix_empty (sep : string) :
  String.prefix sep EmptyString = true -> sep = EmptyString.
Proof. destruct sep; [reflexivity|discriminate]. Qed.

(** X14.  When the separator occurs in a string, splitting on it gives at
    least two pieces, and splitting always gives at least one: the
    indexing [sheets_url.split('/d/')[1].split('/')[0]] behind the test
    ['/d/' in sheets_url] never fails. *)
Theorem split_pieces (sep s : string) :
  sep <> EmptyString ->
  (1 <= length (split sep s))%nat
  /\ (contains sep s = true -> (2 <= length (split sep s))%nat).
Proof.
  intros Hsep. split; [apply split_from_nonempty|].
  unfold split. generalize EmptyString as cur.
  induction s as [|c s IH]; intros cur; cbn [contains split_from].
  - rewrite orb_false_r. intros H%prefix_empty. contradiction.
  - destruct (String.prefix sep (String c s)); cbn [orb length].
    + intros _.
      pose proof (split_from_nonempty sep (String.length sep - 1)
                    EmptyString s). lia.
    + apply IH.
Qed.

Lemma split_pieces_witness :
  (1 <= length (split "/d/" sheet_url))%nat
  /\ (contains "/d/" sheet_url = true ->
      (2 <= length (split "/d/" sheet_url))%nat).
Proof. apply (split_pieces "/d/" sheet_url). discriminate. Defined.

Lemma prefix_append (s t : string) : String.prefix s (String.append s t) = true.
Proof.
  induction s as [|c s IH]; [destruct t; reflexivity|].
  rewrite append_cons. cbn [String.prefix].
  destruct (ascii_dec c c); [exact IH|congruence].
Qed.

Lemma split_from_skip (sep u cur t : string) :
  split_from sep (String.length u) cur (String.append u t)
  = split_from sep O cur t.
Proof.
  induction u as [|c u IH]; [reflexivity|].
  rewrite append_cons. cbn [String.length split_from]. exact IH.
Qed.

Lemma split_from_match (c : ascii) (sep cur t : string) :
  split_from (String c sep) O cur (String.append (String c sep) t)
  = cur :: split_from (String c sep) O EmptyString t.
Proof.
  pose proof (prefix_append (String c sep) t) as Hp.
  rewrite append_cons in *. cbn [split_from]. rewrite Hp.
  cbn [String.length Nat.sub]. rewrite Nat.sub_0_r. f_equal.
  apply split_from_skip.
Qed.

Lemma split_from_unmatched (sep u t cur : string) :
  unmatched sep u t = true ->
  split_from sep O cur (String.append u t)
  = split_from sep O (String.append cur u) t.
Proof.
  revert cur. induction u as [|c u IH]; intros cur.
  - intros _. rewrite append_empty_l, append_empty_r. reflexivity.
  - cbn [unmatched]. intros [Hp Hu]%andb_prop.
    apply negb_true_iff in Hp. rewrite append_cons in *.
    cbn [split_from]. rewrite Hp, (IH _ Hu), append_assoc. reflexivity.
Qed.

Lemma split_from_head (sep t cur : string) :
  exists y,
    nth 0 (split_from sep O cur t) EmptyString = String.append cur y
    /\ String.prefix y t = true.
Proof.
  revert cur. induction t as [|c t IH]; intros cur.
  - exists EmptyString. rewrite append_empty_r. split; reflexivity.
  - cbn [split_from]. destruct (String.prefix sep (String c t)).
    + exists EmptyString. rewrite append_empty_r. split; reflexivity.
    + destruct (IH (String.append cur (String c EmptyString))) as (y & E & Hy).
      exists (String c y). rewrite E, append_assoc. split; [reflexivity|].
      cbn [String.prefix]. destruct (ascii_dec c c); [exact Hy|congruence].
Qed.

(** A string free of the first character of the separator holds no start
    of an occurrence. *)
Lemma unmatched_free (c : ascii) (sep u t : string) :
  contains (String c EmptyString) u = false ->
  unmatched (String c sep) u t = true.
Proof.
  induction u as [|a u IH]; [reflexivity|].
  cbn [contains unmatched]. intros [Hp Hu]%orb_false_elim.
  rewrite (IH Hu), andb_true_r, append_cons. cbn [String.prefix] in *.
  destruct (ascii_dec c a); [|reflexivity].
  destruct u; discriminate.
Qed.

Lemma prefix_append_long (s u x : string) :
  (String.length s <= String.length u)%nat ->
  String.prefix s (String.append u x) = String.prefix s u.
Proof.
  revert u. induction s as [|c s IH]; intros u Hlen.
  - destruct u, x; reflexivity.
  - destruct u as [|b u]; [cbn [String.length] in Hlen; lia|].
    rewrite append_cons. cbn [String.prefix].
    destruct (ascii_dec c b); [|reflexivity].
    apply IH. cbn [String.length] in Hlen. lia.
Qed.

Lemma length_append (s t : string) :
  String.length (String.append s t) = (String.length s + String.length t)%nat.
Proof.
  induction s as [|c s IH]; [reflexivity|].
  rewrite append_cons. cbn [String.length]. rewrite IH. reflexivity.
Qed.

(** When "/d/" does not occur in [pre] followed by "/d", its first
    occurrence in [pre] followed by "/d/" is the one after [pre]. *)
Lemma unmatched_before_key (pre t : string) :
  contains "/d/" (String.append pre "/d") = false ->
  unmatched "/d/" pre (String.append "/d/" t) = true.
Proof.
  induction pre as [|a pre IH]; [reflexivity|].
  rewrite append_cons. cbn [contains unmatched].
  intros [Hp Hu]%orb_false_elim.
  rewrite (IH Hu), andb_true_r.
  change (String.append "/d/" t)
    with (String.append "/d" (String.append "/" t)).
  rewrite <- append_assoc, append_cons.
  rewrite <- append_cons, prefix_append_long.
  - rewrite append_cons, Hp. reflexivity.
  - rewrite append_cons. cbn [String.length]. rewrite length_append.
    cbn [String.length]. lia.
Qed.

Lemma contains_append (sep pre t : string) :
  contains sep (String.append pre (String.append sep t)) = true.
Proof.
  induction pre as [|a pre IH].
  - rewrite append_empty_l.
    destruct (String.append sep t) eqn:E; cbn [contains];
      rewrite <- E, prefix_append; reflexivity.
  - rewrite append_cons. cbn [contains]. rewrite IH. apply orb_true_r.
Qed.

(** The key is what stands between the first "/d/" and the next "/". *)
Lemma sheet_key (pre key rest : string) :
  contains "/d/" (String.append pre "/d") = false ->
  contains "/" key = false ->
  rest = EmptyString \/ (exists z, rest = String "/" z) ->
  nth 0 (split "/"
           (nth 1 (split "/d/"
                     (String.append pre
                        (String.append "/d/" (String.append key rest))))
                EmptyString))
      EmptyString
  = key.
Proof.
  intros Hpre Hkey Hrest. unfold split at 2.
  rewrite (split_from_unmatched "/d/" pre _ EmptyString)
    by (apply unmatched_before_key, Hpre).
  rewrite append_empty_l, (split_from_match "/" "d/").
  cbn [nth].
  rewrite (split_from_unmatched "/d/" key rest EmptyString)
    by (apply unmatched_free, Hkey).
  rewrite append_empty_l.
  destruct (split_from_head "/d/" rest key) as (y & -> & Hy).
  unfold split.
  rewrite (split_from_unmatched "/" key y EmptyString)
    by (apply unmatched_free, Hkey).
  rewrite append_empty_l.
  destruct Hrest as [->|[z ->]].
  - apply prefix_empty in Hy. subst y. reflexivity.
  - destruct y as [|c y]; [reflexivity|].
    cbn [String.prefix] in Hy.
    destruct (ascii_dec c "/") as [->|]; [|discriminate].
    destruct y; reflexivity.
Qed.

(** X15.  For a URL made of a first part, "/d/", a key without "/", and
    then nothing or a part that starts with "/", where that "/d/" is the
    first one of the URL, and credentials that are accepted, the loader
    opens the spreadsheet of exactly that key and returns its table, or
    the message of the error it met. *)
Theorem loader_opens_key_of_url (w : World) (json pre key rest : string) :
  authorize w json = None ->
  contains "/d/" (String.append pre "/d") = false ->
  contains "/" key = false ->
  rest = EmptyString \/ (exists z, rest = String "/" z) ->
  load_google_sheets_data_uncached w json
    (String.append pre (String.append "/d/" (String.append key rest)))
  = match open_by_key w json key with
    | inr df => (Some df, None)
    | inl msg => (None, Some msg)
    end.
Proof.
  intros Hauth Hpre Hkey Hrest. unfold load_google_sheets_data_uncached.
  rewrite Hauth, contains_append, (sheet_key pre key rest Hpre Hkey Hrest).
  reflexivity.
Qed.

Lemma loader_opens_key_of_url_witness :
  load_google_sheets_data_uncached sample_world "{}" sheet_url
  = (Some scenario_table, None).
Proof.
  apply (loader_opens_key_of_url sample_world "{}"
           "https://docs.google.com/spreadsheets" "abc123" "/edit").
  - reflexivity.
  - reflexivity.
  - reflexivity.
  - right. exists "edit". reflexivity.
Defined.
